(** * The 7z parameter-search driver (tool.py), embedded and verified

    The development follows the source: first the fragment of Python the
    script relies on (exceptions, strings, [int], [str.split], insertion
    ordered dictionaries, [min]/[max] with a key function), then the working
    directory and the two external processes ([7z] and [du]), then the
    functions of tool.py one by one, and finally the properties. *)

From Stdlib Require Import ZArith List String Ascii Bool Lia DecimalString
  DecimalZ FinFun Sorted.
Import ListNotations.

Local Open Scope Z_scope.
Local Open Scope string_scope.

(* ================================================================== *)
(** ** Python fragment *)
(* ================================================================== *)

Module Py.

(** Exceptions the script can raise. *)
Inductive exn : Type :=
| ValueError
| TypeError
| IndexError
| KeyError
| SystemExit (msg : string).

(** A Python computation either returns a value or raises. *)
Inductive result (A : Type) : Type :=
| Ok (a : A)
| Raise (e : exn).

Arguments Ok {A} a.
Arguments Raise {A} e.

Definition bind {A B : Type} (m : result A) (k : A -> result B) : result B :=
  match m with
  | Ok a => k a
  | Raise e => Raise e
  end.

(** *** Strings

    Strings are sequences of ASCII characters. *)

(** [str.isspace] on one ASCII character: tab, LF, VT, FF, CR, the four
    separators 0x1c-0x1f and the blank. *)
Definition is_space (c : ascii) : bool :=
  let n := nat_of_ascii c in
  ((9 <=? n) && (n <=? 13))%nat || ((28 <=? n) && (n <=? 32))%nat.

(** [sub in s] for two strings. *)
Fixpoint contains (sub s : string) : bool :=
  if String.prefix sub s then true
  else match s with
       | EmptyString => false
       | String _ r => contains sub r
       end.

(** [s.startswith(p)]. *)
Definition startswith (s p : string) : bool := String.prefix p s.

(** [s.endswith(suf)]: some tail of [s] is [suf]. *)
Fixpoint endswith (s suf : string) : bool :=
  if String.eqb s suf then true
  else match s with
       | EmptyString => false
       | String _ r => endswith r suf
       end.

(** [s[:-1]]: everything but the last character (empty stays empty). *)
Fixpoint init (s : string) : string :=
  match s with
  | EmptyString => EmptyString
  | String c r =>
      match r with
      | EmptyString => EmptyString
      | String _ _ => String c (init r)
      end
  end.

(** [s.split()]: maximal runs of non-blank characters, in order.  [tok] is
    the run being read. *)
Fixpoint split_from (tok s : string) : list string :=
  match s with
  | EmptyString =>
      match tok with
      | EmptyString => []
      | String _ _ => [tok]
      end
  | String c r =>
      if is_space c then
        match tok with
        | EmptyString => split_from EmptyString r
        | String _ _ => tok :: split_from EmptyString r
        end
      else split_from (tok ++ String c EmptyString) r
  end.

Definition split (s : string) : list string := split_from EmptyString s.

(** A line boundary of [str.splitlines]: LF, VT, FF, CR and the three
    separators 0x1c-0x1e. *)
Definition is_linebreak (c : ascii) : bool :=
  let n := nat_of_ascii c in
  ((10 <=? n) && (n <=? 13))%nat || ((28 <=? n) && (n <=? 30))%nat.

(** [s.splitlines()]: the text is cut at every line boundary, CR LF
    counting for one; the boundaries are dropped, and so is an empty last
    line.  [line] is the line being read.  (The text mode of
    [universal_newlines=True] turns CR LF and CR into LF beforehand, which
    cuts the text at the same places.) *)
Fixpoint splitlines_from (line s : string) : list string :=
  match s with
  | EmptyString =>
      match line with
      | EmptyString => []
      | String _ _ => [line]
      end
  | String c r =>
      if is_linebreak c then
        match r with
        | EmptyString => [line]
        | String c2 r2 =>
            if Ascii.eqb c "013"%char && Ascii.eqb c2 "010"%char
            then line :: splitlines_from EmptyString r2
            else line :: splitlines_from EmptyString r
        end
      else splitlines_from (line ++ String c EmptyString) r
  end.

Definition splitlines (s : string) : list string :=
  splitlines_from EmptyString s.

(** [s.strip()], used by [int]. *)
Fixpoint lstrip (s : string) : string :=
  match s with
  | EmptyString => EmptyString
  | String c r => if is_space c then lstrip r else s
  end.

Fixpoint rstrip (s : string) : string :=
  match s with
  | EmptyString => EmptyString
  | String c r =>
      match rstrip r with
      | EmptyString => if is_space c then EmptyString else String c EmptyString
      | String _ _ as r' => String c r'
      end
  end.

Definition strip (s : string) : string := rstrip (lstrip s).

(** *** Integers *)

Definition digit_of (c : ascii) : option Z :=
  let n := nat_of_ascii c in
  if ((48 <=? n) && (n <=? 57))%nat then Some (Z.of_nat (n - 48)) else None.

(** The digits of an integer literal: decimal digits, with single
    underscores allowed between two digits.  [prev] tells whether the last
    character read was a digit. *)
Fixpoint digits_value (acc : Z) (prev : bool) (s : string) : option Z :=
  match s with
  | EmptyString => if prev then Some acc else None
  | String c r =>
      match digit_of c with
      | Some d => digits_value (10 * acc + d) true r
      | None =>
          if Ascii.eqb c "_"%char && prev then digits_value acc false r
          else None
      end
  end.

(** [int(s)] for a string (base 10, ASCII): blanks around are dropped, one
    sign is allowed, anything else raises ValueError. *)
Definition int (s : string) : result Z :=
  let t := strip s in
  let '(neg, body) :=
    match t with
    | String "-"%char r => (true, r)
    | String "+"%char r => (false, r)
    | _ => (false, t)
    end in
  match digits_value 0 false body with
  | Some n => Ok (if neg then - n else n)
  | None => Raise ValueError
  end.

(** [str(n)], also what an f-string writes for an integer. *)
Definition str (n : Z) : string := NilZero.string_of_int (Z.to_int n).

(** An object that is an integer or [None]. *)
Definition int_or_none : Type := option Z.

(** [a > b] and [a < b]: ordering is defined between two integers, and is a
    TypeError as soon as one side is [None]. *)
Definition gt (a b : int_or_none) : result bool :=
  match a, b with
  | Some x, Some y => Ok (Z.ltb y x)
  | _, _ => Raise TypeError
  end.

Definition lt (a b : int_or_none) : result bool :=
  match a, b with
  | Some x, Some y => Ok (Z.ltb x y)
  | _, _ => Raise TypeError
  end.

(** [range(lo, hi)] and [reversed]. *)
Definition range (lo hi : Z) : list Z :=
  map (fun i => lo + Z.of_nat i) (seq 0 (Z.to_nat (hi - lo))).

Definition reversed {A : Type} (l : list A) : list A := rev l.

(** *** Lists *)

(** [l.index(x)]: position of the first occurrence, ValueError if none. *)
Fixpoint index_from (n : nat) (x : string) (l : list string) : result nat :=
  match l with
  | [] => Raise ValueError
  | y :: r => if String.eqb y x then Ok n else index_from (S n) x r
  end.

Definition index (l : list string) (x : string) : result nat :=
  index_from 0 x l.

(** [l.insert(i, x)]. *)
Definition insert {A : Type} (i : nat) (x : A) (l : list A) : list A :=
  firstn i l ++ x :: skipn i l.

(** [del l[-2:]]. *)
Definition del_last2 {A : Type} (l : list A) : list A :=
  firstn (List.length l - 2) l.

(** [l[i]] for [i >= 0]. *)
Definition getitem {A : Type} (l : list A) (i : nat) : result A :=
  match nth_error l i with
  | Some a => Ok a
  | None => Raise IndexError
  end.

(** *** Dictionaries

    A [dict] keeps its keys in insertion order, and the script depends on it
    ([min] and [max] return the first extremal key), so a dictionary is the
    list of its items, oldest first, with pairwise distinct keys. *)

Class Key (K : Type) : Type := {
  key_eqb : K -> K -> bool;
  key_eqb_eq : forall a b, key_eqb a b = true <-> a = b
}.

#[export] Instance Key_string : Key string :=
  {| key_eqb := String.eqb; key_eqb_eq := String.eqb_eq |}.

#[export] Instance Key_Z : Key Z :=
  {| key_eqb := Z.eqb; key_eqb_eq := Z.eqb_eq |}.

Definition dict (K : Type) : Type := list (K * Z).

Section Dict.
Context {K : Type} `{Key K}.

(** [d.get(k)]: the value, or [None]. *)
Fixpoint get (d : dict K) (k : K) : int_or_none :=
  match d with
  | [] => None
  | (k', v) :: r => if key_eqb k k' then Some v else get r k
  end.

(** [d[k]]. *)
Definition getitem_dict (d : dict K) (k : K) : result Z :=
  match get d k with
  | Some v => Ok v
  | None => Raise KeyError
  end.

(** [d[k] = v]: an existing key keeps its place, a new one goes last. *)
Fixpoint set (k : K) (v : Z) (d : dict K) : dict K :=
  match d with
  | [] => [(k, v)]
  | (k', v') :: r =>
      if key_eqb k k' then (k', v) :: r else (k', v') :: set k v r
  end.

(** Iterating a dictionary yields its keys. *)
Definition keys (d : dict K) : list K := map fst d.

(** [min(it, key=f)]: the first item is the candidate; a later item
    replaces it only when its key is strictly smaller. *)
Fixpoint min_loop (f : K -> int_or_none) (best : K) (rest : list K)
  : result K :=
  match rest with
  | [] => Ok best
  | x :: r =>
      match lt (f x) (f best) with
      | Raise e => Raise e
      | Ok true => min_loop f x r
      | Ok false => min_loop f best r
      end
  end.

Definition min_key (it : list K) (f : K -> int_or_none) : result K :=
  match it with
  | [] => Raise ValueError
  | x :: r => min_loop f x r
  end.

(** [max(it, key=f)], symmetric. *)
Fixpoint max_loop (f : K -> int_or_none) (best : K) (rest : list K)
  : result K :=
  match rest with
  | [] => Ok best
  | x :: r =>
      match gt (f x) (f best) with
      | Raise e => Raise e
      | Ok true => max_loop f x r
      | Ok false => max_loop f best r
      end
  end.

Definition max_key (it : list K) (f : K -> int_or_none) : result K :=
  match it with
  | [] => Raise ValueError
  | x :: r => max_loop f x r
  end.
End Dict.

End Py.

Import Py.

Notation "x <- m ;; k" := (Py.bind m (fun x => k))
  (at level 61, m at next level, right associativity).
Notation "' p <- m ;; k" := (Py.bind m (fun x => match x with p => k end))
  (at level 61, p pattern, m at next level, right associativity).

(* ================================================================== *)
(** ** The working directory and the external processes *)
(* ================================================================== *)

(** What [Path().glob('*')] finds in the working directory: directories,
    each with the figure [du -sm] reports for it (whole megabytes), and
    regular files with their size in bytes. *)
Inductive entry : Type :=
| Dir (name : string) (mb : Z)
| File (name : string) (size : Z).

Definition entry_name (e : entry) : string :=
  match e with
  | Dir n _ => n
  | File n _ => n
  end.

Definition is_dir (e : entry) : bool :=
  match e with
  | Dir _ _ => true
  | File _ _ => false
  end.

Definition is_file (e : entry) : bool :=
  match e with
  | Dir _ _ => false
  | File _ _ => true
  end.

(** The state the script runs in: the working directory in listing order,
    what [os.cpu_count()] answers (an integer or [None]), and the log of
    the compressor commands run so far, each with its exit status. *)
Record world : Type := mkWorld {
  cwd : list entry;
  cpu_count : int_or_none;
  calls : list (list string * Z)
}.

Definition with_cwd (fs : list entry) (w : world) : world :=
  {| cwd := fs; cpu_count := cpu_count w; calls := calls w |}.

(** A process writes (or overwrites) a regular file.  A directory of the
    same name is left alone. *)
Fixpoint write_file (name : string) (size : Z) (fs : list entry)
  : list entry :=
  match fs with
  | [] => [File name size]
  | e :: r =>
      if String.eqb (entry_name e) name then
        match e with
        | File _ _ => File name size :: r
        | Dir _ _ => e :: r
        end
      else e :: write_file name size r
  end.

(** The archive a [7z a <switches> -- <archive> <files>] command names: the
    argument that follows the first [--] after the program name. *)
Fixpoint after_dashes (args : list string) : option string :=
  match args with
  | [] => None
  | a :: r =>
      if String.eqb a "--" then hd_error r else after_dashes r
  end.

Definition archive_arg (cmd : list string) : option string :=
  after_dashes (tl cmd).

Definition tab : string := String "009"%char EmptyString.

(** The words the shell makes of the pattern [*/]: one word [<name>/] for
    each directory whose name does not start with a dot, here with the
    figure [du -sm] finds for it. *)
Definition du_word (e : entry) : list (string * Z) :=
  match e with
  | Dir n mb =>
      if Py.startswith n "." then [] else [((n ++ "/")%string, mb)]
  | File _ _ => []
  end.

Definition du_words (fs : list entry) : list (string * Z) :=
  flat_map du_word fs.

(** The shell sorts the words of an expansion, byte by byte (what [sh]
    does in the C locale). *)
Fixpoint insert_word (word : string * Z) (sorted : list (string * Z))
  : list (string * Z) :=
  match sorted with
  | [] => [word]
  | other :: rest =>
      if String.leb (fst word) (fst other) then word :: sorted
      else other :: insert_word word rest
  end.

Definition sort_words (words : list (string * Z)) : list (string * Z) :=
  fold_right insert_word [] words.

(** One line of [du -s]: [<megabytes><TAB><word>]. *)
Definition du_line (word : string * Z) : string :=
  Py.str (snd word) ++ tab ++ fst word.

Definition newline : string := String "010"%char EmptyString.

(** The standard output of [du -sm */].  Without a word the pattern
    stays as it is and [du] finds no such file; a word that starts with
    [-] is taken by [du] for options, and with the [/] at its end it is
    one that [du] rejects; in both cases nothing is printed.  Otherwise
    there is one line for each word, in the order of the words.  (The few
    names that spell an option [du] accepts even with a [/] at the end,
    such as [--exclude=x], are outside this description; the properties
    of the probe are stated on the lines it reads.) *)
Definition du_sm (fs : list entry) : string :=
  let words := sort_words (du_words fs) in
  if existsb (fun word => Py.startswith (fst word) "-") words
  then EmptyString
  else fold_right (fun word out => du_line word ++ newline ++ out)
         EmptyString words.

(* ================================================================== *)
(** ** tool.py *)
(* ================================================================== *)

Module values.

Definition wordsize : list Z :=
  [8; 12; 16; 24;
   32; 48; 64; 96;
   128; 192; 256; 273].

Definition dictsize : list string :=
  ["64k"; "1m"; "2m"; "3m"; "4m";
   "6m"; "8m"; "12m"; "16m"; "24m";
   "32m"; "48m"; "64m"; "96m"; "128m";
   "192m"; "256m"; "384m"; "512m"; "768m";
   "1024m"; "1536m"].

Definition blocksize : list string :=
  ["=off"; "=on"; "1m"; "2m"; "3m";
   "4m"; "6m"; "8m"; "12m"; "16m";
   "32m"; "64m"; "128m"; "256m"; "512m";
   "1g"; "2g"; "4g"; "8g"; "16g";
   "32g"; "64g"].

End values.

(** [directories()]: the names of the directories of the working directory,
    hidden ones and [venv] left out.  The generator is consumed by the loop
    of [runCMD] while archives are being written; a regular file is never
    yielded, so the listing taken when the loop starts is what it sees. *)
Definition directories (w : world) : list string :=
  flat_map
    (fun thing =>
       if is_dir thing && negb (Py.startswith (entry_name thing) ".") then
         if negb (String.eqb (entry_name thing) "venv")
         then [entry_name thing] else []
       else [])
    (cwd w).

Definition is_archive (thing : entry) : bool :=
  is_file thing && Py.endswith (entry_name thing) ".7z".

(** [removeArchives()]: unlink every regular file whose name ends in .7z. *)
Definition removeArchives (w : world) : world :=
  with_cwd (filter (fun thing => negb (is_archive thing)) (cwd w)) w.

(** [getTotalSizeOfArchives()]. *)
Definition getTotalSizeOfArchives (w : world) : Z :=
  fold_left
    (fun total_size archive =>
       if is_archive archive then
         match archive with
         | File _ archive_size => total_size + archive_size
         | Dir _ _ => total_size
         end
       else total_size)
    (cwd w) 0.

(** The loop of [getLargestDirectorySize] over the lines of [du]. *)
Fixpoint getLargestDirectorySize_loop
  (directory_sizes : list string) (sizes : dict string)
  : result (dict string) :=
  match directory_sizes with
  | [] => Ok sizes
  | line :: rest =>
      let size := Py.split line in
      path <- Py.getitem size 1 ;;
      if Py.contains "venv" path then
        getLargestDirectorySize_loop rest sizes
      else
        n <- (field <- Py.getitem size 0 ;; Py.int field) ;;
        getLargestDirectorySize_loop rest (Py.set (Py.init path) n sizes)
  end.

(** [getLargestDirectorySize] once [directory_sizes], the lines of [du],
    is known. *)
Definition getLargestDirectorySize_of (directory_sizes : list string)
  : result Z :=
  sizes <- getLargestDirectorySize_loop directory_sizes [] ;;
  largest <- Py.max_key (Py.keys sizes) (Py.get sizes) ;;
  Py.getitem_dict sizes largest.

Definition getLargestDirectorySize (w : world) : result Z :=
  getLargestDirectorySize_of (Py.splitlines (du_sm (cwd w))).

(** The loop of [minimumLargestDictSize]; falling out of it returns [None]. *)
Fixpoint minimumLargestDictSize_loop (largest : Z) (sizes : list string)
  : result int_or_none :=
  match sizes with
  | [] => Ok None
  | size :: rest =>
      if Py.contains "m" size then
        n <- Py.int (Py.init size) ;;
        if Z.ltb largest n then Ok (Some n)
        else minimumLargestDictSize_loop largest rest
      else minimumLargestDictSize_loop largest rest
  end.

Definition minimumLargestDictSize (w : world) : result int_or_none :=
  largest <- getLargestDirectorySize w ;;
  minimumLargestDictSize_loop largest values.dictsize.

(** The loop of [minimumLargestBlockSize]. *)
Fixpoint minimumLargestBlockSize_loop
  (largest_dirsize : Z) (sizes : list string) : result int_or_none :=
  match sizes with
  | [] => Ok None
  | size :: rest =>
      if Py.endswith size "m" || Py.endswith size "g" then
        if Z.ltb largest_dirsize 1024 then
          n <- Py.int (Py.init size) ;;
          if Z.ltb largest_dirsize n then Ok (Some n)
          else minimumLargestBlockSize_loop largest_dirsize rest
        else minimumLargestBlockSize_loop largest_dirsize rest
      else minimumLargestBlockSize_loop largest_dirsize rest
  end.

Definition minimumLargestBlockSize (w : world) : result int_or_none :=
  largest_dirsize <- getLargestDirectorySize w ;;
  minimumLargestBlockSize_loop largest_dirsize values.blocksize.

(** [smallestSize(data)]. *)
Definition smallestSize {K : Type} `{Key K} (data : dict K)
  : result (K * Z) :=
  smallest <- Py.min_key (Py.keys data) (Py.get data) ;;
  v <- Py.getitem_dict data smallest ;;
  Ok (smallest, v).

(** Truth value of an optional argument: [None], the empty string and 0 are
    false. *)
Definition truthy_str (a : option string) : option string :=
  match a with
  | Some s => if String.eqb s "" then None else Some s
  | None => None
  end.

Definition truthy_int (a : option Z) : option Z :=
  match a with
  | Some n => if Z.eqb n 0 then None else Some n
  | None => None
  end.

Section Tool.

(** The compressor: from its command line and the working directory it
    finds, the exit status and, when it leaves an archive, the size of that
    archive.  Its standard output is discarded. *)
Variable sevenzip : list string -> list entry -> Z * option Z.

(** [_7z_path], the result of [shutil.which('7z')] when there is one. *)
Variable _7z_path : string.

(** [subprocess.run(cmd, stdout=subprocess.DEVNULL)]: run the compressor,
    keep what it wrote, and ignore the [CompletedProcess] it returns (there
    is no [check=True]); the call is logged with the exit status. *)
Definition subprocess_run (cmd : list string) (w : world) : world :=
  let '(returncode, written) := sevenzip cmd (cwd w) in
  let fs :=
    match written, archive_arg cmd with
    | Some size, Some archive => write_file archive size (cwd w)
    | _, _ => cwd w
    end in
  {| cwd := fs; cpu_count := cpu_count w;
     calls := calls w ++ [(cmd, returncode)] |}.

(** [cmd.insert(cmd.index('--'), flag)] when the argument is true. *)
Definition insert_flag (flag : option string) (cmd : list string)
  : result (list string) :=
  match flag with
  | Some f => i <- Py.index cmd "--" ;; Ok (Py.insert i f cmd)
  | None => Ok cmd
  end.

(** The loop of [runCMD] over the directories: extend, run, trim. *)
Fixpoint runCMD_loop (dirs : list string) (cmd : list string) (w : world)
  : list string * world :=
  match dirs with
  | [] => (cmd, w)
  | directory :: rest =>
      let cmd1 := (cmd ++ [(directory ++ ".7z")%string; directory])%list in
      let w1 := subprocess_run cmd1 w in
      runCMD_loop rest (Py.del_last2 cmd1) w1
  end.

(** The command [runCMD] has assembled when its loop starts. *)
Definition runCMD_flags
  (dict_size : option string) (word_size : option Z)
  (block_size : option string) (threads : option Z)
  : result (list string) :=
  let cmd := [_7z_path; "a"; "-mx9"; "--"] in
  cmd <- insert_flag
           (option_map (fun s => "-md" ++ s) (truthy_str dict_size)) cmd ;;
  cmd <- insert_flag
           (option_map (fun n => "-mfb" ++ Py.str n) (truthy_int word_size))
           cmd ;;
  cmd <- insert_flag
           (option_map (fun s => "-ms" ++ s) (truthy_str block_size)) cmd ;;
  insert_flag
    (option_map (fun n => "-mmt" ++ Py.str n) (truthy_int threads)) cmd.

(** [runCMD(dict_size, word_size, block_size, threads)], with the final
    content of the local list [cmd]. *)
Definition runCMD_cmd
  (dict_size : option string) (word_size : option Z)
  (block_size : option string) (threads : option Z) (w : world)
  : result (list string * world) :=
  let dirs := directories w in
  cmd <- runCMD_flags dict_size word_size block_size threads ;;
  Ok (runCMD_loop dirs cmd w).

Definition runCMD
  (dict_size : option string) (word_size : option Z)
  (block_size : option string) (threads : option Z) (w : world)
  : result world :=
  ' (_, w1) <- runCMD_cmd dict_size word_size block_size threads w ;;
  Ok w1.

(** The loop of [testAllDictSizes]; [break] returns what has been
    recorded. *)
Fixpoint testAllDictSizes_loop
  (largestDictSize : int_or_none) (sizes : list string)
  (info : dict string) (w : world) : result (dict string * world) :=
  match sizes with
  | [] => Ok (info, w)
  | size :: rest =>
      n <- Py.int (Py.init size) ;;
      stop <- Py.gt (Some n) largestDictSize ;;
      if stop then Ok (info, w)
      else
        w1 <- runCMD (Some size) None None None w ;;
        let info1 := Py.set size (getTotalSizeOfArchives w1) info in
        testAllDictSizes_loop largestDictSize rest info1 (removeArchives w1)
  end.

Definition testAllDictSizes (w : world) : result (dict string * world) :=
  largestDictSize <- minimumLargestDictSize w ;;
  testAllDictSizes_loop largestDictSize values.dictsize [] w.

Fixpoint testAllWordSizes_loop
  (dict_size : option string) (sizes : list Z)
  (info : dict Z) (w : world) : result (dict Z * world) :=
  match sizes with
  | [] => Ok (info, w)
  | size :: rest =>
      w1 <- runCMD dict_size (Some size) None None w ;;
      let info1 := Py.set size (getTotalSizeOfArchives w1) info in
      testAllWordSizes_loop dict_size rest info1 (removeArchives w1)
  end.

Definition testAllWordSizes (dict_size : option string) (w : world)
  : result (dict Z * world) :=
  testAllWordSizes_loop dict_size values.wordsize [] w.

Fixpoint testAllBlockSizes_loop
  (dict_size : option string) (word_size : option Z)
  (largestBlockSize : int_or_none) (sizes : list string)
  (info : dict string) (w : world) : result (dict string * world) :=
  match sizes with
  | [] => Ok (info, w)
  | size :: rest =>
      stop <- (if Py.endswith size "m" then
                 n <- Py.int (Py.init size) ;;
                 Py.gt (Some n) largestBlockSize
               else Ok false) ;;
      if stop then Ok (info, w)
      else
        w1 <- runCMD dict_size word_size (Some size) None w ;;
        let info1 := Py.set size (getTotalSizeOfArchives w1) info in
        testAllBlockSizes_loop dict_size word_size largestBlockSize rest
          info1 (removeArchives w1)
  end.

Definition testAllBlockSizes
  (dict_size : option string) (word_size : option Z) (w : world)
  : result (dict string * world) :=
  largestBlockSize <- minimumLargestBlockSize w ;;
  testAllBlockSizes_loop dict_size word_size largestBlockSize
    values.blocksize [] w.

Fixpoint testNThreads_loop
  (dict_size : option string) (word_size : option Z)
  (block_size : option string) (counts : list Z)
  (info : dict Z) (w : world) : result (dict Z * world) :=
  match counts with
  | [] => Ok (info, w)
  | i :: rest =>
      w1 <- runCMD dict_size word_size block_size (Some i) w ;;
      let info1 := Py.set i (getTotalSizeOfArchives w1) info in
      testNThreads_loop dict_size word_size block_size rest info1
        (removeArchives w1)
  end.

(** [os.cpu_count() + 1] is a TypeError when the count is [None]. *)
Definition testNThreads
  (dict_size : option string) (word_size : option Z)
  (block_size : option string) (w : world) : result (dict Z * world) :=
  match cpu_count w with
  | None => Raise TypeError
  | Some n =>
      testNThreads_loop dict_size word_size block_size
        (Py.reversed (Py.range 1 (n + 1))) [] w
  end.

(** [main()].  The progress lines it prints are not modelled. *)
Definition main (w : world) : result world :=
  let w := removeArchives w in
  ' (t, w) <- testAllDictSizes w ;;
  dict_best <- smallestSize t ;;
  ' (t, w) <- testAllWordSizes (Some (fst dict_best)) w ;;
  word_best <- smallestSize t ;;
  ' (t, w) <- testAllBlockSizes (Some (fst dict_best))
                (Some (fst word_best)) w ;;
  block_best <- smallestSize t ;;
  ' (t, w) <- testNThreads (Some (fst dict_best)) (Some (fst word_best))
                (Some (fst block_best)) w ;;
  thread_best <- smallestSize t ;;
  runCMD (Some (fst dict_best)) (Some (fst word_best))
    (Some (fst block_best)) (Some (fst thread_best)) w.

End Tool.

(** The module as a script: without a [7z] on the path it exits before
    anything runs. *)
Definition script
  (sevenzip : list string -> list entry -> Z * option Z)
  (which_7z : option string) (w : world) : result world :=
  match which_7z with
  | None => Raise (SystemExit "7z binary could not be found!")
  | Some path => main sevenzip path w
  end.

(* ================================================================== *)
(** ** Vocabulary of the properties *)
(* ================================================================== *)

(** The switches of one run, in the order [runCMD] inserts them: one for
    each argument that is true. *)
Definition switch (letters : string) (a : option string) : list string :=
  match a with
  | Some s => [letters ++ s]
  | None => []
  end.

Definition switches
  (dict_size : option string) (word_size : option Z)
  (block_size : option string) (threads : option Z) : list string :=
  (switch "-md" (truthy_str dict_size)
   ++ switch "-mfb" (option_map Py.str (truthy_int word_size))
   ++ switch "-ms" (truthy_str block_size)
   ++ switch "-mmt" (option_map Py.str (truthy_int threads)))%list.

(** [range(1, n + 1)] read backwards counts down from [n] to 1. *)
Definition countdown (n : Z) : list Z :=
  map (fun i => n - Z.of_nat i) (seq 0 (Z.to_nat n)).

(** The archives of the working directory: what [removeArchives] unlinks
    and [getTotalSizeOfArchives] adds up. *)
Definition archives (w : world) : list entry := filter is_archive (cwd w).

(** The shape the four sweeps share: run the candidate, record the total
    size of the archives under it, remove the archives, go on. *)
Fixpoint sweep {K : Type} `{Key K}
  (run : K -> world -> result world) (candidates : list K)
  (info : dict K) (w : world) : result (dict K * world) :=
  match candidates with
  | [] => Ok (info, w)
  | c :: rest =>
      w1 <- run c w ;;
      sweep run rest (Py.set c (getTotalSizeOfArchives w1) info)
        (removeArchives w1)
  end.

(** The stop check of the dictionary sweep, as the loop writes it. *)
Definition dict_stop (largestDictSize : int_or_none) (size : string)
  : result bool :=
  n <- Py.int (Py.init size) ;; Py.gt (Some n) largestDictSize.

(** The stop check of the block sweep. *)
Definition block_stop (largestBlockSize : int_or_none) (size : string)
  : result bool :=
  if Py.endswith size "m" then
    n <- Py.int (Py.init size) ;; Py.gt (Some n) largestBlockSize
  else Ok false.

(** No blank character in a string. *)
Fixpoint no_space (s : string) : bool :=
  match s with
  | EmptyString => true
  | String c r => negb (Py.is_space c) && no_space r
  end.

(** *** Sample compressors and working directories *)

(** A compressor that succeeds and leaves an archive of 1000 bytes. *)
Definition sevenzip_1000 (cmd : list string) (fs : list entry)
  : Z * option Z := (0, Some 1000).

(** A compressor that fails with exit status 2 and writes nothing. *)
Definition sevenzip_fails (cmd : list string) (fs : list entry)
  : Z * option Z := (2, None).

(** Two directories, [A] of 10 MB and [B] of 5 MB, on a 4-core machine. *)
Definition world_10MB : world :=
  {| cwd := [Dir "A" 10; Dir "B" 5]; cpu_count := Some 4; calls := [] |}.

Definition world_500MB : world :=
  {| cwd := [Dir "A" 500; Dir "B" 5]; cpu_count := Some 4; calls := [] |}.

Definition world_1024MB : world :=
  {| cwd := [Dir "A" 1024; Dir "B" 5]; cpu_count := Some 4; calls := [] |}.


(** A directory whose name contains [venv], next to a small one, and two
    stale archives. *)
Definition world_my_venv : world :=
  {| cwd := [Dir "a" 1; File "a.7z" 7; Dir "my-venv" 3; File "old.7z" 9];
     cpu_count := Some 4; calls := [] |}.

(** What the search is not supposed to change: the entries that are not
    archives, and the number of cores. *)
Definition base (w : world) : list entry * int_or_none :=
  (cwd (removeArchives w), cpu_count w).

(** The size one compression run produces from the working directory [fs]:
    the total size of the archives found after it. *)
Definition measure
  (sevenzip : list string -> list entry -> Z * option Z) (path : string)
  (dict_size : option string) (word_size : option Z)
  (block_size : option string) (threads : option Z) (fs : list entry) : Z :=
  match runCMD sevenzip path dict_size word_size block_size threads
          (mkWorld fs None []) with
  | Ok w1 => getTotalSizeOfArchives w1
  | Raise _ => 0
  end.

(** The command of one run for one directory. *)
Definition command
  (path : string) (dict_size : option string) (word_size : option Z)
  (block_size : option string) (threads : option Z) (directory : string)
  : list string :=
  ([path; "a"; "-mx9"]
   ++ switches dict_size word_size block_size threads
   ++ ["--"; (directory ++ ".7z")%string; directory])%list.

(** The number a candidate is read as by [int(size[:-1])], when it can be
    read. *)
Definition readable (size : string) : bool :=
  match Py.int (Py.init size) with
  | Ok _ => true
  | Raise _ => false
  end.

Definition number (size : string) : Z :=
  match Py.int (Py.init size) with
  | Ok n => n
  | Raise _ => 0
  end.

(** The numbers of the candidates of a table that pass a test, in table
    order. *)
Definition numbers (eligible : string -> bool) (sizes : list string)
  : list Z :=
  map number (filter eligible sizes).

(** The candidates a bound function looks at. *)
Definition has_m (size : string) : bool := Py.contains "m" size.

Definition ends_m (size : string) : bool := Py.endswith size "m".

Definition ends_m_or_g (size : string) : bool :=
  Py.endswith size "m" || Py.endswith size "g".

(** The longest prefix of a list whose elements all pass a test. *)
Fixpoint take_while {A : Type} (p : A -> bool) (l : list A) : list A :=
  match l with
  | [] => []
  | x :: r => if p x then x :: take_while p r else []
  end.




(** The size of an entry as [getTotalSizeOfArchives] counts it. *)
Definition entry_size (e : entry) : Z :=
  match e with
  | Dir _ _ => 0
  | File _ size => size
  end.

(** There is a regular file of that name. *)
Definition has_file (name : string) (fs : list entry) : Prop :=
  exists size, In (File name size) fs.




(** The switch a parameter is to put on the command line, case by case:
    a text gives one unless it is left out or empty, a number unless it is
    left out or zero. *)
Definition text_flag (letters : string) (a : option string) : list string :=
  match a with
  | None => []
  | Some EmptyString => []
  | Some (String c r) => [(letters ++ String c r)%string]
  end.

Definition number_flag (letters : string) (a : option Z) : list string :=
  match a with
  | None => []
  | Some Z0 => []
  | Some (Zpos p) => [(letters ++ Py.str (Zpos p))%string]
  | Some (Zneg p) => [(letters ++ Py.str (Zneg p))%string]
  end.

Definition expected_flags
  (dict_size : option string) (word_size : option Z)
  (block_size : option string) (threads : option Z) : list string :=
  (text_flag "-md" dict_size ++ number_flag "-mfb" word_size
   ++ text_flag "-ms" block_size ++ number_flag "-mmt" threads)%list.

(** The command line one directory is to be compressed with. *)
Definition expected_command
  (path : string) (dict_size : option string) (word_size : option Z)
  (block_size : option string) (threads : option Z) (directory : string)
  : list string :=
  ([path; "a"; "-mx9"]
   ++ expected_flags dict_size word_size block_size threads
   ++ ["--"; (directory ++ ".7z")%string; directory])%list.



(** The bytes an entry adds to the total of the [.7z] files: its size
    when it is a regular file whose name ends in [.7z]. *)
Definition seven_zip_bytes (e : entry) : Z :=
  match e with
  | File name size => if Py.endswith name ".7z" then size else 0
  | Dir _ _ => 0
  end.

Definition total_7z (fs : list entry) : Z :=
  fold_right Z.add 0 (map seven_zip_bytes fs).

(** A compressor that fails with exit status 2 after it has left an
    archive of 700 bytes. *)
Definition sevenzip_partial (cmd : list string) (fs : list entry)
  : Z * option Z := (2, Some 700).

(* ================================================================== *)
(** ** Facts about the Python fragment *)
(* ================================================================== *)

Section DictFacts.
Context {K : Type} `{Key K}.

Lemma key_eqb_refl (k : K) : key_eqb k k = true.
Proof. now apply key_eqb_eq. Qed.

Lemma key_eqb_neq (a b : K) : a <> b -> key_eqb a b = false.
Proof.
  intros Hab. destruct (key_eqb a b) eqn:E; [|reflexivity].
  apply key_eqb_eq in E. contradiction.
Qed.

Lemma get_In (d : dict K) (k : K) (v : Z) :
  NoDup (Py.keys d) -> In (k, v) d -> Py.get d k = Some v.
Proof.
  induction d as [|[k' v'] d IH]; simpl; intros Hnd Hin; [contradiction|].
  inversion Hnd as [|? ? Hnotin Hnd']; subst.
  destruct Hin as [Heq|Hin].
  - inversion Heq; subst. now rewrite key_eqb_refl.
  - rewrite key_eqb_neq; [now apply IH|].
    intros ->. apply Hnotin. unfold Py.keys.
    change k' with (fst (k', v)). now apply in_map.
Qed.


Lemma set_fresh (d : dict K) (k : K) (v : Z) :
  ~ In k (Py.keys d) -> Py.set k v d = (d ++ [(k, v)])%list.
Proof.
  induction d as [|[k' v'] d IH]; simpl; intros Hnotin; [reflexivity|].
  rewrite key_eqb_neq by (intros ->; apply Hnotin; now left).
  rewrite IH; [reflexivity|]. intros Hin. apply Hnotin. now right.
Qed.

(** What the loop of [min] returns: with [pre ++ best :: post] already
    read, [best] strictly below everything in [pre] and not above anything
    in [post], the answer splits the whole sequence the same way. *)
Lemma min_loop_first (f : K -> int_or_none) (rest : list K) :
  forall (pre post : list K) (best : K) (vb : Z),
    f best = Some vb ->
    (forall x, In x pre -> exists vx, f x = Some vx /\ vb < vx) ->
    (forall x, In x post -> exists vx, f x = Some vx /\ vb <= vx) ->
    (forall x, In x rest -> exists vx, f x = Some vx) ->
    exists (k : K) (v : Z) (l1 l2 : list K),
      Py.min_loop f best rest = Ok k /\ f k = Some v /\
      (pre ++ best :: post ++ rest = l1 ++ k :: l2)%list /\
      (forall x, In x l1 -> exists vx, f x = Some vx /\ v < vx) /\
      (forall x, In x l2 -> exists vx, f x = Some vx /\ v <= vx).
Proof.
  induction rest as [|x rest IH]; intros pre post best vb Hb Hpre Hpost Hrest.
  - exists best, vb, pre, post. simpl. rewrite app_nil_r. auto.
  - destruct (Hrest x (or_introl eq_refl)) as [vx Hx].
    assert (Hrest' : forall y, In y rest -> exists vy, f y = Some vy)
      by (intros y Hy; apply Hrest; now right).
    simpl. rewrite Hx, Hb. simpl.
    destruct (Z.ltb_spec vx vb) as [Hlt|Hge].
    + destruct (IH (pre ++ best :: post)%list [] x vx Hx) as
        (k & v & l1 & l2 & Hk & Hv & Hsplit & H1 & H2); auto.
      * intros y Hy. apply in_app_or in Hy. destruct Hy as [Hy|[<-|Hy]].
        -- destruct (Hpre y Hy) as (vy & Hvy & ?). exists vy. split; [auto|lia].
        -- exists vb. split; [auto|lia].
        -- destruct (Hpost y Hy) as (vy & Hvy & ?). exists vy. split; [auto|lia].
      * intros y [].
      * exists k, v, l1, l2. repeat split; auto.
        rewrite <- Hsplit. simpl. now rewrite <- app_assoc.
    + destruct (IH pre (post ++ [x])%list best vb Hb Hpre) as
        (k & v & l1 & l2 & Hk & Hv & Hsplit & H1 & H2); auto.
      * intros y Hy. apply in_app_or in Hy. destruct Hy as [Hy|[<-|[]]].
        -- now apply Hpost.
        -- exists vx. split; [auto|lia].
      * exists k, v, l1, l2. repeat split; auto.
        rewrite <- Hsplit. now rewrite <- app_assoc.
Qed.

(** When no later item is strictly smaller, [min] keeps its first item. *)
Lemma min_loop_tie (f : K -> int_or_none) (s : Z) (rest : list K) :
  forall best,
    f best = Some s ->
    (forall x, In x rest -> f x = Some s) ->
    Py.min_loop f best rest = Ok best.
Proof.
  induction rest as [|x rest IH]; intros best Hbest Hrest; [reflexivity|].
  simpl. rewrite (Hrest x (or_introl eq_refl)), Hbest. simpl.
  rewrite Z.ltb_irrefl. apply IH; [exact Hbest|].
  intros y Hy. apply Hrest. now right.
Qed.

End DictFacts.

Lemma keys_set_fresh {K : Type} `{Key K} (d : dict K) (k : K) (v : Z) :
  ~ In k (Py.keys d) -> Py.keys (Py.set k v d) = (Py.keys d ++ [k])%list.
Proof.
  intros Hk. rewrite set_fresh by exact Hk.
  unfold Py.keys. now rewrite map_app.
Qed.

Lemma index_from_found (pre post : list string) (n : nat) :
  ~ In "--" pre ->
  Py.index_from n "--" (pre ++ "--" :: post) = Ok (n + List.length pre)%nat.
Proof.
  revert n. induction pre as [|a pre IH]; intros n Hpre; simpl.
  - f_equal. lia.
  - destruct (String.eqb_spec a "--") as [->|_].
    + exfalso. apply Hpre. now left.
    + rewrite IH by (intros Hin; apply Hpre; now right). f_equal. lia.
Qed.

Lemma index_from_total (l : list string) (n : nat) :
  In "--" l -> exists i, Py.index_from n "--" l = Ok i.
Proof.
  revert n. induction l as [|a l IH]; intros n Hin; [contradiction|].
  simpl. destruct (String.eqb_spec a "--") as [->|Hne]; [eauto|].
  apply IH. destruct Hin as [Heq|Hin]; [congruence|exact Hin].
Qed.

Lemma insert_at_length {A : Type} (pre post : list A) (x : A) :
  Py.insert (List.length pre) x (pre ++ post) = (pre ++ x :: post)%list.
Proof.
  unfold Py.insert.
  rewrite firstn_app, skipn_app, Nat.sub_diag, firstn_all, skipn_all.
  simpl. now rewrite app_nil_r.
Qed.

Lemma In_insert {A : Type} (i : nat) (x y : A) (l : list A) :
  In y l -> In y (Py.insert i x l).
Proof.
  intros Hy. unfold Py.insert. rewrite <- (firstn_skipn i l) in Hy.
  apply in_app_or in Hy. apply in_or_app.
  destruct Hy; [now left|right; now right].
Qed.

Lemma del_last2_app {A : Type} (l : list A) (a b : A) :
  Py.del_last2 (l ++ [a; b]) = l.
Proof.
  unfold Py.del_last2. rewrite length_app. simpl.
  replace (List.length l + 2 - 2)%nat with (List.length l + 0)%nat by lia.
  rewrite firstn_app_2. simpl. now rewrite app_nil_r.
Qed.

Lemma reversed_range_countdown (n : Z) :
  Py.reversed (Py.range 1 (n + 1)) = countdown n.
Proof.
  unfold Py.reversed, Py.range, countdown.
  replace (n + 1 - 1) with n by lia.
  destruct (Z.le_gt_cases n 0) as [Hn|Hn].
  - replace (Z.to_nat n) with 0%nat by lia. reflexivity.
  - assert (En : n = Z.of_nat (Z.to_nat n)) by lia.
    revert En. generalize (Z.to_nat n) as m. intros m ->.
    clear Hn.
    induction m as [|m IH].
    + reflexivity.
    + rewrite seq_S at 1. rewrite map_app, rev_app_distr.
      cbn [map rev app Nat.add]. rewrite IH.
      cbn [seq map]. f_equal; [lia|].
      rewrite <- seq_shift, map_map.
      apply map_ext. intros i. lia.
Qed.

Lemma countdown_NoDup (n : Z) : NoDup (countdown n).
Proof.
  unfold countdown. apply Injective_map_NoDup.
  - intros i j Hij. lia.
  - apply seq_NoDup.
Qed.

Lemma countdown_head (n : Z) :
  1 <= n -> exists rest, countdown n = n :: rest.
Proof.
  intros Hn. unfold countdown.
  destruct (Z.to_nat n) as [|m] eqn:E; [lia|].
  simpl. eexists. f_equal. lia.
Qed.

Lemma countdown_In (n i : Z) : In i (countdown n) <-> 1 <= i <= n.
Proof.
  unfold countdown. rewrite in_map_iff. split.
  - intros (j & <- & Hj). apply in_seq in Hj. lia.
  - intros Hi. exists (Z.to_nat (n - i)). split; [lia|].
    apply in_seq. lia.
Qed.

(* ================================================================== *)
(** ** Facts about the compression run *)
(* ================================================================== *)

Section RunFacts.
Variable sevenzip : list string -> list entry -> Z * option Z.
Variable path : string.

Lemma subprocess_run_calls (cmd : list string) (w : world) :
  calls (subprocess_run sevenzip cmd w)
  = (calls w ++ [(cmd, fst (sevenzip cmd (cwd w)))])%list.
Proof.
  unfold subprocess_run. now destruct (sevenzip cmd (cwd w)).
Qed.

(** Writing a regular file changes nothing to the directories there are,
    which is why the lazily consumed generator of [directories()] can be
    read when the loop starts. *)
Lemma write_file_directories (name : string) (size : Z) (fs : list entry)
  (n : int_or_none) (log : list (list string * Z)) :
  directories (mkWorld (write_file name size fs) n log)
  = directories (mkWorld fs n log).
Proof.
  unfold directories. cbn [cwd].
  induction fs as [|e fs IH]; [reflexivity|].
  cbn [write_file]. destruct (String.eqb (entry_name e) name).
  - now destruct e.
  - cbn [flat_map]. now rewrite IH.
Qed.

Lemma subprocess_run_directories (cmd : list string) (w : world) :
  directories (subprocess_run sevenzip cmd w) = directories w.
Proof.
  unfold subprocess_run. destruct (sevenzip cmd (cwd w)) as [rc [size|]];
    [|now destruct w].
  destruct (archive_arg cmd) as [archive|]; [|now destruct w].
  rewrite write_file_directories. now destruct w.
Qed.

Lemma subprocess_run_cpu_count (cmd : list string) (w : world) :
  cpu_count (subprocess_run sevenzip cmd w) = cpu_count w.
Proof.
  unfold subprocess_run. now destruct (sevenzip cmd (cwd w)).
Qed.

(** The loop hands back the list it was given, and has run one command per
    directory: that list followed by the archive and the directory. *)
Lemma runCMD_loop_commands (dirs cmd : list string) :
  forall w,
    fst (runCMD_loop sevenzip dirs cmd w) = cmd /\
    map fst (calls (snd (runCMD_loop sevenzip dirs cmd w)))
    = (map fst (calls w)
       ++ map (fun d => cmd ++ [(d ++ ".7z")%string; d]) dirs)%list.
Proof.
  induction dirs as [|d dirs IH]; intros w; simpl.
  - now rewrite app_nil_r.
  - rewrite del_last2_app. destruct (IH (subprocess_run sevenzip
      (cmd ++ [(d ++ ".7z")%string; d]) w)) as [Hcmd Hcalls].
    split; [exact Hcmd|].
    rewrite Hcalls, subprocess_run_calls, map_app. simpl.
    now rewrite <- app_assoc.
Qed.

Lemma insert_flag_found (f : string) (pre post : list string) :
  ~ In "--" pre ->
  insert_flag (Some f) (pre ++ "--" :: post)
  = Ok (pre ++ f :: "--" :: post)%list.
Proof.
  intros Hpre. unfold insert_flag, Py.index.
  rewrite index_from_found by exact Hpre. simpl.
  now rewrite insert_at_length.
Qed.

Lemma insert_flag_total (flag : option string) (cmd : list string) :
  In "--" cmd ->
  exists cmd', insert_flag flag cmd = Ok cmd' /\ In "--" cmd'.
Proof.
  intros Hin. destruct flag as [f|]; simpl; [|eauto].
  unfold Py.index. destruct (index_from_total cmd 0 Hin) as [i ->].
  simpl. eexists. split; [reflexivity|]. now apply In_insert.
Qed.

(** Assembling the command cannot fail: [--] is in the list from the
    start and stays in it. *)
Lemma runCMD_flags_total
  (dict_size : option string) (word_size : option Z)
  (block_size : option string) (threads : option Z) :
  exists cmd,
    runCMD_flags path dict_size word_size block_size threads = Ok cmd.
Proof.
  unfold runCMD_flags.
  destruct (insert_flag_total
              (option_map (fun s => "-md" ++ s) (truthy_str dict_size))
              [path; "a"; "-mx9"; "--"]) as (c1 & -> & H1);
    [simpl; tauto|].
  destruct (insert_flag_total
              (option_map (fun n => "-mfb" ++ Py.str n) (truthy_int word_size))
              c1 H1) as (c2 & E2 & H2).
  destruct (insert_flag_total
              (option_map (fun s => "-ms" ++ s) (truthy_str block_size))
              c2 H2) as (c3 & E3 & H3).
  destruct (insert_flag_total
              (option_map (fun n => "-mmt" ++ Py.str n) (truthy_int threads))
              c3 H3) as (c4 & E4 & H4).
  exists c4. cbn [Py.bind]. rewrite E2. cbn [Py.bind]. rewrite E3.
  cbn [Py.bind]. exact E4.
Qed.

(** Hence a compression run always returns, whatever the compressor's exit
    statuses were. *)
Lemma runCMD_total
  (dict_size : option string) (word_size : option Z)
  (block_size : option string) (threads : option Z) (w : world) :
  exists w1,
    runCMD sevenzip path dict_size word_size block_size threads w = Ok w1.
Proof.
  unfold runCMD, runCMD_cmd.
  destruct (runCMD_flags_total dict_size word_size block_size threads)
    as [cmd ->].
  cbn [Py.bind].
  destruct (runCMD_loop sevenzip (directories w) cmd w) as [c w1]. eauto.
Qed.

Ltac not_dashes :=
  simpl; intros Hin;
  repeat match goal with
         | H : _ \/ _ |- _ => destruct H
         | H : False |- _ => contradiction
         | H : _ = "--" |- _ => first [discriminate H | congruence]
         end.

(** When the program is not itself called [--], the switches end up
    between [-mx9] and [--], in the order of the arguments. *)
Lemma runCMD_flags_shape
  (dict_size : option string) (word_size : option Z)
  (block_size : option string) (threads : option Z) :
  path <> "--" ->
  runCMD_flags path dict_size word_size block_size threads
  = Ok ([path; "a"; "-mx9"]
        ++ switches dict_size word_size block_size threads ++ ["--"])%list.
Proof.
  intros Hpath. unfold runCMD_flags, switches.
  assert (Hmd : forall s, ("-md" ++ s)%string <> "--") by (intros s; discriminate).
  assert (Hmfb : forall s, ("-mfb" ++ s)%string <> "--") by (intros s; discriminate).
  assert (Hms : forall s, ("-ms" ++ s)%string <> "--") by (intros s; discriminate).
  destruct (truthy_str dict_size) as [d|];
    destruct (truthy_int word_size) as [wd|];
    destruct (truthy_str block_size) as [b|];
    destruct (truthy_int threads) as [t|];
    cbn [option_map switch app Py.bind insert_flag]; unfold Py.index;
    repeat
      (match goal with
       | |- context [Py.index_from 0 "--" (?a :: ?l)] =>
           let pre := constr:(removelast (a :: l)) in
           let pre' := eval cbn [removelast] in pre in
           change (a :: l) with (pre' ++ ["--"])%list;
           rewrite (index_from_found pre' [] 0) by not_dashes;
           cbn [Py.bind Nat.add];
           rewrite (insert_at_length pre' ["--"]);
           cbn [app Py.bind]
       end);
    reflexivity.
Qed.

End RunFacts.

(* ================================================================== *)
(** ** Facts about archives and sweeps *)
(* ================================================================== *)

Lemma removeArchives_archives (w : world) : archives (removeArchives w) = [].
Proof.
  unfold archives, removeArchives, with_cwd. simpl.
  induction (cwd w) as [|e fs IH]; simpl; [reflexivity|].
  destruct (is_archive e) eqn:E; simpl; [exact IH|].
  now rewrite E.
Qed.

Lemma removeArchives_clean (w : world) :
  archives w = [] -> removeArchives w = w.
Proof.
  unfold archives, removeArchives, with_cwd. destruct w as [fs n log]. simpl.
  intros Hnone. f_equal.
  induction fs as [|e fs IH]; simpl in *; [reflexivity|].
  destruct (is_archive e) eqn:E; simpl; [discriminate|].
  f_equal. now apply IH.
Qed.

Lemma removeArchives_idem (w : world) :
  removeArchives (removeArchives w) = removeArchives w.
Proof. apply removeArchives_clean, removeArchives_archives. Qed.

Lemma total_from (fs : list entry) (acc : Z) :
  filter is_archive fs = [] ->
  fold_left
    (fun total_size archive =>
       if is_archive archive then
         match archive with
         | File _ archive_size => total_size + archive_size
         | Dir _ _ => total_size
         end
       else total_size) fs acc = acc.
Proof.
  revert acc. induction fs as [|e fs IH]; intros acc Hnone; simpl in *;
    [reflexivity|].
  destruct (is_archive e) eqn:E; [discriminate|]. now apply IH.
Qed.

Lemma getTotalSizeOfArchives_clean (w : world) :
  archives w = [] -> getTotalSizeOfArchives w = 0.
Proof. intros Hnone. unfold getTotalSizeOfArchives. now apply total_from. Qed.

Lemma In_set_inv {K : Type} `{Key K} (d : dict K) (k k' : K) (v v' : Z) :
  In (k', v') (Py.set k v d) -> In (k', v') d \/ v' = v.
Proof.
  induction d as [|[k0 v0] d IH]; simpl.
  - intros [[= <- <-]|[]]. now right.
  - destruct (key_eqb k k0).
    + intros [[= <- <-]|Hin]; [now right|left; now right].
    + intros [Heq|Hin]; [left; now left|].
      destruct (IH Hin); [left; now right|now right].
Qed.

Section SweepFacts.
Context {K : Type} `{Key K}.
Variable run : K -> world -> result world.
Hypothesis run_total : forall c w, exists w1, run c w = Ok w1.

(** A sweep whose runs all return records its candidates, in order, after
    the keys already there, and leaves no archive behind. *)
Lemma sweep_keys (candidates : list K) :
  forall (info : dict K) (w : world),
    NoDup (Py.keys info ++ candidates) ->
    exists info' w',
      sweep run candidates info w = Ok (info', w') /\
      Py.keys info' = (Py.keys info ++ candidates)%list /\
      (archives w = [] -> archives w' = []).
Proof.
  induction candidates as [|c rest IH]; intros info w Hnd.
  - exists info, w. simpl. rewrite app_nil_r. auto.
  - simpl. destruct (run_total c w) as [w1 ->]. cbn [Py.bind].
    assert (Hfresh : ~ In c (Py.keys info)).
    { intros Hin. apply NoDup_remove_2 in Hnd. apply Hnd.
      apply in_or_app. now left. }
    destruct (IH (Py.set c (getTotalSizeOfArchives w1) info)
                (removeArchives w1)) as (info' & w' & -> & Hkeys & Harch).
    + rewrite keys_set_fresh by exact Hfresh.
      rewrite <- app_assoc. exact Hnd.
    + exists info', w'. split; [reflexivity|]. split.
      * rewrite Hkeys, keys_set_fresh by exact Hfresh.
        now rewrite <- app_assoc.
      * intros _. apply Harch, removeArchives_archives.
Qed.

(** What a sweep records are sizes measured right after a run that started
    without archives, as soon as the sweep itself starts without any. *)
Lemma sweep_values (P : Z -> Prop) (candidates : list K) :
  (forall c w w1,
      archives w = [] -> run c w = Ok w1 -> P (getTotalSizeOfArchives w1)) ->
  forall (info info' : dict K) (w w' : world),
    archives w = [] ->
    (forall k v, In (k, v) info -> P v) ->
    sweep run candidates info w = Ok (info', w') ->
    forall k v, In (k, v) info' -> P v.
Proof.
  intros Hrun.
  induction candidates as [|c rest IH]; intros info info' w w' Hw Hinfo.
  - simpl. intros [= <- <-]. exact Hinfo.
  - simpl. destruct (run c w) as [w1|e] eqn:E; [|discriminate].
    cbn [Py.bind]. apply IH.
    + apply removeArchives_archives.
    + intros k v Hin. apply In_set_inv in Hin.
      destruct Hin as [Hin| ->]; [eauto|]. eapply Hrun; eauto.
Qed.

End SweepFacts.

Section SweepShapes.
Variable sevenzip : list string -> list entry -> Z * option Z.
Variable path : string.

Lemma testAllWordSizes_loop_sweep (dict_size : option string) (sizes : list Z) :
  forall info w,
    testAllWordSizes_loop sevenzip path dict_size sizes info w
    = sweep (fun size => runCMD sevenzip path dict_size (Some size) None None)
        sizes info w.
Proof.
  induction sizes as [|size rest IH]; intros info w; simpl; [reflexivity|].
  destruct (runCMD sevenzip path dict_size (Some size) None None w);
    cbn [Py.bind]; auto.
Qed.

Lemma testNThreads_loop_sweep
  (dict_size : option string) (word_size : option Z)
  (block_size : option string) (counts : list Z) :
  forall info w,
    testNThreads_loop sevenzip path dict_size word_size block_size counts
      info w
    = sweep (fun i => runCMD sevenzip path dict_size word_size block_size
                        (Some i)) counts info w.
Proof.
  induction counts as [|i rest IH]; intros info w; simpl; [reflexivity|].
  destruct (runCMD sevenzip path dict_size word_size block_size (Some i) w);
    cbn [Py.bind]; auto.
Qed.

(** Over candidates none of which stops the loop, the two pruned sweeps
    have the common shape too. *)
Lemma testAllDictSizes_loop_sweep
  (largestDictSize : int_or_none) (sizes : list string) :
  forallb (fun size =>
             match dict_stop largestDictSize size with
             | Ok false => true
             | _ => false
             end) sizes = true ->
  forall info w,
    testAllDictSizes_loop sevenzip path largestDictSize sizes info w
    = sweep (fun size => runCMD sevenzip path (Some size) None None None)
        sizes info w.
Proof.
  induction sizes as [|size rest IH]; intros Hgo info w;
    cbn [testAllDictSizes_loop sweep]; [reflexivity|].
  cbn [forallb] in Hgo. apply andb_true_iff in Hgo.
  destruct Hgo as [Hsize Hrest]. unfold dict_stop in Hsize.
  destruct (Py.int (Py.init size)) as [n|e]; [|discriminate].
  cbn [Py.bind] in *.
  destruct (Py.gt (Some n) largestDictSize) as [[|]|e]; try discriminate.
  cbn [Py.bind].
  destruct (runCMD sevenzip path (Some size) None None None w);
    cbn [Py.bind]; auto.
Qed.

Lemma testAllBlockSizes_loop_sweep
  (dict_size : option string) (word_size : option Z)
  (largestBlockSize : int_or_none) (sizes : list string) :
  forallb (fun size =>
             match block_stop largestBlockSize size with
             | Ok false => true
             | _ => false
             end) sizes = true ->
  forall info w,
    testAllBlockSizes_loop sevenzip path dict_size word_size
      largestBlockSize sizes info w
    = sweep (fun size => runCMD sevenzip path dict_size word_size
                           (Some size) None) sizes info w.
Proof.
  induction sizes as [|size rest IH]; intros Hgo info w;
    cbn [testAllBlockSizes_loop sweep]; [reflexivity|].
  cbn [forallb] in Hgo. apply andb_true_iff in Hgo.
  destruct Hgo as [Hsize Hrest]. unfold block_stop in Hsize.
  destruct (if Py.endswith size "m"
            then n <- Py.int (Py.init size) ;; Py.gt (Some n) largestBlockSize
            else Ok false) as [[|]|e]; try discriminate.
  cbn [Py.bind].
  destruct (runCMD sevenzip path dict_size word_size (Some size) None w);
    cbn [Py.bind]; auto.
Qed.



End SweepShapes.

(* ================================================================== *)
(** ** Facts about the size probe *)
(* ================================================================== *)

Lemma append_assoc (a b c : string) : ((a ++ b) ++ c = a ++ (b ++ c))%string.
Proof. induction a as [|x a IH]; simpl; [reflexivity|now rewrite IH]. Qed.

Lemma append_nil_r (a : string) : (a ++ "")%string = a.
Proof. induction a as [|x a IH]; simpl; [reflexivity|now rewrite IH]. Qed.


(** Reading a run of non-blank characters only extends the token. *)
Lemma split_from_run (a : string) :
  forall tok s,
    no_space a = true ->
    Py.split_from tok (a ++ s) = Py.split_from (tok ++ a) s.
Proof.
  induction a as [|c a IH]; intros tok s Ha; simpl.
  - now rewrite append_nil_r.
  - simpl in Ha. apply andb_true_iff in Ha. destruct Ha as [Hc Ha].
    apply negb_true_iff in Hc. rewrite Hc, IH by exact Ha.
    now rewrite append_assoc.
Qed.

(** A line made of two non-empty fields without blanks, with a tab
    between them, splits into these two fields. *)
Lemma split_two_fields (a b : string) :
  no_space a = true -> no_space b = true -> a <> "" -> b <> "" ->
  Py.split (a ++ tab ++ b) = [a; b].
Proof.
  intros Ha Hb Hane Hbne. unfold Py.split.
  rewrite split_from_run by exact Ha. simpl.
  destruct a as [|x a]; [congruence|].
  rewrite <- (append_nil_r b) at 1.
  rewrite split_from_run by exact Hb. simpl.
  destruct b as [|y b]; [congruence|reflexivity].
Qed.



Lemma string_of_uint_no_space (d : Decimal.uint) :
  no_space (NilEmpty.string_of_uint d) = true.
Proof. induction d; simpl; auto. Qed.






(* ================================================================== *)
(** ** Facts about the pruned sweeps *)
(* ================================================================== *)

Lemma NoDup_blocksize : NoDup values.blocksize.
Proof.
  change values.blocksize with (nodup string_dec values.blocksize).
  apply NoDup_nodup.
Qed.

Lemma NoDup_wordsize : NoDup values.wordsize.
Proof.
  change values.wordsize with (nodup Z.eq_dec values.wordsize).
  apply NoDup_nodup.
Qed.

(** Without a bound ([None]) the block sweep runs the two modes and fails
    on the comparison at its first sized candidate. *)
Lemma testAllBlockSizes_loop_None
  (sevenzip : list string -> list entry -> Z * option Z) (path : string)
  (dict_size : option string) (word_size : option Z)
  (info : dict string) (w : world) :
  testAllBlockSizes_loop sevenzip path dict_size word_size None
    values.blocksize info w = Raise TypeError.
Proof.
  unfold values.blocksize. cbn [testAllBlockSizes_loop].
  change (Py.endswith "=off" "m") with false. cbn [Py.bind].
  destruct (runCMD_total sevenzip path dict_size word_size (Some "=off")
              None w) as [w1 ->].
  cbn [Py.bind]. change (Py.endswith "=on" "m") with false. cbn [Py.bind].
  destruct (runCMD_total sevenzip path dict_size word_size (Some "=on")
              None (removeArchives w1)) as [w2 ->].
  reflexivity.
Qed.

Lemma minimumLargestBlockSize_loop_large (largest : Z) (sizes : list string) :
  1024 <= largest ->
  minimumLargestBlockSize_loop largest sizes = Ok None.
Proof.
  intros Hlarge. induction sizes as [|size rest IH]; simpl; [reflexivity|].
  destruct (Z.ltb_spec largest 1024) as [Hlt|_]; [lia|].
  now destruct (Py.endswith size "m" || Py.endswith size "g").
Qed.

Section SweepsClean.
Variable sevenzip : list string -> list entry -> Z * option Z.
Variable path : string.

(** Finish a loop step: either the run raised, or the loop goes on from a
    working directory that [removeArchives] has just cleaned. *)
Ltac after_run IH :=
  match goal with
  | |- context [Py.bind (runCMD ?a ?b ?c ?d ?e ?f ?g) _] =>
      destruct (runCMD a b c d e f g) as [w1|e1]; cbn [Py.bind];
      [apply IH, removeArchives_archives | discriminate]
  end.

Lemma testAllDictSizes_loop_clean
  (bound : int_or_none) (sizes : list string) :
  forall info w info' w',
    archives w = [] ->
    testAllDictSizes_loop sevenzip path bound sizes info w = Ok (info', w') ->
    archives w' = [].
Proof.
  induction sizes as [|size rest IH]; intros info w info' w' Hw;
    cbn [testAllDictSizes_loop].
  - now intros [= _ <-].
  - destruct (Py.int (Py.init size)) as [n|e]; [|discriminate].
    cbn [Py.bind].
    destruct (Py.gt (Some n) bound) as [[|]|e]; cbn [Py.bind];
      [now intros [= _ <-]| |discriminate].
    after_run IH.
Qed.

Lemma testAllWordSizes_loop_clean
  (dict_size : option string) (sizes : list Z) :
  forall info w info' w',
    archives w = [] ->
    testAllWordSizes_loop sevenzip path dict_size sizes info w
    = Ok (info', w') ->
    archives w' = [].
Proof.
  induction sizes as [|size rest IH]; intros info w info' w' Hw;
    cbn [testAllWordSizes_loop].
  - now intros [= _ <-].
  - after_run IH.
Qed.

Lemma testAllBlockSizes_loop_clean
  (dict_size : option string) (word_size : option Z)
  (bound : int_or_none) (sizes : list string) :
  forall info w info' w',
    archives w = [] ->
    testAllBlockSizes_loop sevenzip path dict_size word_size bound sizes
      info w = Ok (info', w') ->
    archives w' = [].
Proof.
  induction sizes as [|size rest IH]; intros info w info' w' Hw;
    cbn [testAllBlockSizes_loop].
  - now intros [= _ <-].
  - destruct (if Py.endswith size "m"
              then n <- Py.int (Py.init size) ;; Py.gt (Some n) bound
              else Ok false) as [[|]|e]; cbn [Py.bind];
      [now intros [= _ <-]| |discriminate].
    after_run IH.
Qed.

Lemma testNThreads_loop_clean
  (dict_size : option string) (word_size : option Z)
  (block_size : option string) (counts : list Z) :
  forall info w info' w',
    archives w = [] ->
    testNThreads_loop sevenzip path dict_size word_size block_size counts
      info w = Ok (info', w') ->
    archives w' = [].
Proof.
  induction counts as [|i rest IH]; intros info w info' w' Hw;
    cbn [testNThreads_loop].
  - now intros [= _ <-].
  - after_run IH.
Qed.

End SweepsClean.

(** The dictionary sweep below 48 MB: the bound is at most 48, the first
    candidate ['64k'] reads as 64 and stops the loop at once. *)
Lemma testAllDictSizes_below_48MB_records_nothing
  (sevenzip : list string -> list entry -> Z * option Z) (path : string)
  (w : world) (largest : Z) :
  getLargestDirectorySize w = Ok largest ->
  largest < 48 ->
  testAllDictSizes sevenzip path w = Ok ([], w).
Proof.
  intros Hlargest Hsmall.
  unfold testAllDictSizes, minimumLargestDictSize. rewrite Hlargest.
  cbn [Py.bind]. unfold values.dictsize.
  cbn -[Z.ltb testAllDictSizes_loop].
  repeat match goal with
         | |- context [Py.int ?s] =>
             let v := eval vm_compute in (Py.int s) in
             change (Py.int s) with v; cbn [Py.bind]
         | |- context [Z.ltb largest ?k] =>
             destruct (Z.ltb_spec largest k); [reflexivity|]
         end.
  lia.
Qed.

(** From 1536 MB on there is no bound, and the first comparison of the
    dictionary sweep is between an integer and [None]. *)
Lemma testAllDictSizes_from_1536MB_TypeError
  (sevenzip : list string -> list entry -> Z * option Z) (path : string)
  (w : world) (largest : Z) :
  getLargestDirectorySize w = Ok largest ->
  1536 <= largest ->
  testAllDictSizes sevenzip path w = Raise TypeError.
Proof.
  intros Hlargest Hlarge.
  unfold testAllDictSizes, minimumLargestDictSize. rewrite Hlargest.
  cbn [Py.bind]. unfold values.dictsize.
  cbn -[Z.ltb testAllDictSizes_loop].
  repeat match goal with
         | |- context [Py.int ?s] =>
             let v := eval vm_compute in (Py.int s) in
             change (Py.int s) with v; cbn [Py.bind]
         | |- context [Z.ltb largest ?k] =>
             destruct (Z.ltb_spec largest k); [lia|]
         end.
  reflexivity.
Qed.


(* ================================================================== *)
(** ** Switches, first words and archive totals *)
(* ================================================================== *)

Lemma switch_text_flag (letters : string) (a : option string) :
  switch letters (truthy_str a) = text_flag letters a.
Proof. destruct a as [[|c r]|]; reflexivity. Qed.

Lemma switch_number_flag (letters : string) (a : option Z) :
  switch letters (option_map Py.str (truthy_int a)) = number_flag letters a.
Proof. destruct a as [[|p|p]|]; reflexivity. Qed.

(** The switches [runCMD] inserts are the expected ones. *)
Lemma switches_expected
  (dict_size : option string) (word_size : option Z)
  (block_size : option string) (threads : option Z) :
  switches dict_size word_size block_size threads
  = expected_flags dict_size word_size block_size threads.
Proof.
  unfold switches, expected_flags.
  now rewrite !switch_text_flag, !switch_number_flag.
Qed.

Lemma command_expected
  (path : string) (dict_size : option string) (word_size : option Z)
  (block_size : option string) (threads : option Z) (directory : string) :
  command path dict_size word_size block_size threads directory
  = expected_command path dict_size word_size block_size threads directory.
Proof. unfold command, expected_command. now rewrite switches_expected. Qed.







(** [getTotalSizeOfArchives] adds up the sizes of the [.7z] files. *)
Lemma total_from_total_7z (fs : list entry) :
  forall acc,
    fold_left
      (fun total_size archive =>
         if is_archive archive then
           match archive with
           | File _ archive_size => total_size + archive_size
           | Dir _ _ => total_size
           end
         else total_size) fs acc
    = acc + total_7z fs.
Proof.
  unfold total_7z.
  induction fs as [|e fs IH]; intros acc; cbn [fold_left map fold_right];
    [lia|].
  rewrite IH. destruct e as [n mb|n size]; cbn; [lia|].
  destruct (Py.endswith n ".7z"); lia.
Qed.

Lemma getTotalSizeOfArchives_total_7z (w : world) :
  getTotalSizeOfArchives w = total_7z (cwd w).
Proof.
  unfold getTotalSizeOfArchives. now rewrite total_from_total_7z.
Qed.




Lemma In_set_inv_key {K : Type} `{Key K} (d : dict K) (k k' : K) (v v' : Z) :
  In (k', v') (Py.set k v d) -> In (k', v') d \/ (k' = k /\ v' = v).
Proof.
  induction d as [|[k0 v0] d IH]; simpl.
  - intros [[= <- <-]|[]]. now right.
  - destruct (key_eqb k k0) eqn:E.
    + apply key_eqb_eq in E. subst k0.
      intros [[= <- <-]|Hin]; [now right|left; now right].
    + intros [Heq|Hin]; [left; now left|].
      destruct (IH Hin); [left; now right|now right].
Qed.

(** Every item of the table a sweep returns was there at the start or is a
    candidate with the total size found after a run of that candidate. *)
Lemma sweep_records {K : Type} `{Key K}
  (run : K -> world -> result world) (candidates : list K) :
  forall (info info' : dict K) (w w' : world),
    sweep run candidates info w = Ok (info', w') ->
    forall k v,
      In (k, v) info' ->
      In (k, v) info \/
      (In k candidates /\
       exists w0 w1, run k w0 = Ok w1 /\ v = total_7z (cwd w1)).
Proof.
  induction candidates as [|c rest IH]; intros info info' w w'.
  - simpl. intros [= <- <-]. auto.
  - simpl. destruct (run c w) as [w1|e] eqn:E; [|discriminate].
    cbn [Py.bind]. intros Hsweep k v Hin.
    destruct (IH _ _ _ _ Hsweep k v Hin) as [Hset|(Hk & Hrun)].
    + apply In_set_inv_key in Hset. destruct Hset as [Hold|[-> ->]];
        [now left|].
      right. split; [now left|]. exists w, w1. split; [exact E|].
      apply getTotalSizeOfArchives_total_7z.
    + right. split; [now right|exact Hrun].
Qed.

(* ================================================================== *)
(** ** The claims *)
(* ================================================================== *)

(** C1 (the code departs from the claim).  With a largest directory of
    10 MB the bound is 12; the stop check of the dictionary sweep reads the
    first candidate ['64k'] as 64, which exceeds 12, so the sweep breaks
    before any run: it records nothing, and [main] then fails on the
    minimum of an empty table. *)
Theorem testAllDictSizes_10MB_records_nothing :
  forall (sevenzip : list string -> list entry -> Z * option Z)
         (path : string),
    getLargestDirectorySize world_10MB = Ok 10 /\
    minimumLargestDictSize world_10MB = Ok (Some 12) /\
    dict_stop (Some 12) "64k" = Ok true /\
    testAllDictSizes sevenzip path world_10MB = Ok ([], world_10MB) /\
    main sevenzip path world_10MB = Raise ValueError.
Proof. intros sevenzip path. repeat split; reflexivity. Qed.

(** C2, counterexample.  With a largest directory of 500 MB and a
    compressor that always succeeds, the block sweep records every one of
    the 22 candidates: ['512m'] is run, not excluded. *)
Lemma blocksize_sweep_500MB_runs_512m :
  getLargestDirectorySize world_500MB = Ok 500 /\
  exists info w',
    testAllBlockSizes sevenzip_1000 "7z" None None world_500MB
    = Ok (info, w') /\
    Py.keys info = values.blocksize /\
    In "512m" (Py.keys info).
Proof.
  split; [reflexivity|].
  eexists. eexists. split; [vm_compute; reflexivity|].
  split; [reflexivity|]. simpl. tauto.
Qed.

(** C2, amended.  When the largest directory size is 500 MB the block-size
    bound is 512, the first candidate value above 500, and the sweep stops
    only at a megabyte candidate whose value exceeds that bound: ['256m']
    and ['512m'] are both in the result table, and as no megabyte candidate
    exceeds 512 the table has all 22 candidates, in table order. *)
Theorem blocksize_sweep_500MB_bound_512 :
  forall (sevenzip : list string -> list entry -> Z * option Z)
         (path : string) (dict_size : option string) (word_size : option Z)
         (w : world),
    getLargestDirectorySize w = Ok 500 ->
    minimumLargestBlockSize w = Ok (Some 512) /\
    exists info w',
      testAllBlockSizes sevenzip path dict_size word_size w = Ok (info, w') /\
      Py.keys info = values.blocksize /\
      In "256m" (Py.keys info) /\ In "512m" (Py.keys info).
Proof.
  intros sevenzip path dict_size word_size w Hlargest.
  assert (Hbound : minimumLargestBlockSize w = Ok (Some 512))
    by (unfold minimumLargestBlockSize; now rewrite Hlargest).
  split; [exact Hbound|].
  unfold testAllBlockSizes. rewrite Hbound. cbn [Py.bind].
  rewrite testAllBlockSizes_loop_sweep by (vm_compute; reflexivity).
  destruct (sweep_keys
              (fun size => runCMD sevenzip path dict_size word_size
                             (Some size) None)
              (fun c w0 => runCMD_total sevenzip path dict_size word_size
                             (Some c) None w0)
              values.blocksize [] w NoDup_blocksize)
    as (info & w' & -> & Hkeys & _).
  exists info, w'. simpl in Hkeys. rewrite Hkeys.
  repeat split; simpl; tauto.
Qed.

Lemma blocksize_sweep_500MB_bound_512_witness :
  getLargestDirectorySize world_500MB = Ok 500 /\
  (minimumLargestBlockSize world_500MB = Ok (Some 512) /\
   exists info w',
     testAllBlockSizes sevenzip_fails "7z" (Some "4m") (Some 32) world_500MB
     = Ok (info, w') /\
     Py.keys info = values.blocksize /\
     In "256m" (Py.keys info) /\ In "512m" (Py.keys info)).
Proof.
  split; [reflexivity|].
  apply (blocksize_sweep_500MB_bound_512 sevenzip_fails "7z" (Some "4m")
           (Some 32) world_500MB).
  reflexivity.
Defined.

(** C3 (the code departs from the claim).  When the largest directory size
    is 1024 MB or more, [minimumLargestBlockSize] returns [None], and the
    block sweep, after running ['=off'] and ['=on'], raises a TypeError on
    comparing the value of ['1m'] with [None]: no result table is
    returned. *)
Theorem testAllBlockSizes_large_directory_TypeError :
  forall (sevenzip : list string -> list entry -> Z * option Z)
         (path : string) (dict_size : option string) (word_size : option Z)
         (w : world) (largest : Z),
    getLargestDirectorySize w = Ok largest ->
    1024 <= largest ->
    minimumLargestBlockSize w = Ok None /\
    testAllBlockSizes sevenzip path dict_size word_size w = Raise TypeError.
Proof.
  intros sevenzip path dict_size word_size w largest Hlargest Hlarge.
  assert (Hbound : minimumLargestBlockSize w = Ok None).
  { unfold minimumLargestBlockSize. rewrite Hlargest. cbn [Py.bind].
    now apply minimumLargestBlockSize_loop_large. }
  split; [exact Hbound|].
  unfold testAllBlockSizes. rewrite Hbound. cbn [Py.bind].
  apply testAllBlockSizes_loop_None.
Qed.

Lemma testAllBlockSizes_large_directory_TypeError_witness :
  getLargestDirectorySize world_1024MB = Ok 1024 /\
  1024 <= 1024 /\
  (minimumLargestBlockSize world_1024MB = Ok None /\
   testAllBlockSizes sevenzip_1000 "7z" (Some "4m") (Some 32) world_1024MB
   = Raise TypeError).
Proof.
  split; [reflexivity|]. split; [lia|].
  apply (testAllBlockSizes_large_directory_TypeError sevenzip_1000 "7z"
           (Some "4m") (Some 32) world_1024MB 1024); [reflexivity|lia].
Defined.


(** A compressor that fails on every run (exit status 2) after leaving an
    archive of 700 bytes: the word-size sweep records 1400 bytes, the
    total of the two archives found, for each of the twelve candidates. *)
Example failed_runs_are_recorded_with_what_they_left :
  exists w',
    testAllWordSizes sevenzip_partial "7z" (Some "4m") world_10MB
    = Ok (map (fun size => (size, 1400)) values.wordsize, w') /\
    List.length (calls w') = 24%nat /\
    forallb (fun call => Z.eqb (snd call) 2) (calls w') = true.
Proof.
  eexists. split; [vm_compute; reflexivity|].
  split; reflexivity.
Qed.



(** C5. For a non-empty result table, [smallestSize] returns an item of the
    table whose size is at most every size in the table, and every item
    that comes before it in insertion order has a strictly larger size:
    the first key that attains the minimum wins. *)
Theorem smallestSize_first_minimum :
  forall (K : Type) (KK : Key K) (data : dict K),
    NoDup (Py.keys data) ->
    data <> [] ->
    exists (k : K) (v : Z) (before after : dict K),
      smallestSize data = Ok (k, v) /\
      data = (before ++ (k, v) :: after)%list /\
      (forall k' v', In (k', v') data -> v <= v') /\
      (forall k' v', In (k', v') before -> v < v').
Proof.
  intros K KK data Hnd Hne.
  destruct data as [|[k0 v0] rest]; [congruence|].
  assert (Hget : forall x, In x (Py.keys ((k0, v0) :: rest)) ->
                           exists vx, Py.get ((k0, v0) :: rest) x = Some vx).
  { intros x Hx. unfold Py.keys in Hx. apply in_map_iff in Hx.
    destruct Hx as ([k' v'] & <- & Hin). exists v'. now apply get_In. }
  destruct (min_loop_first (Py.get ((k0, v0) :: rest)) (Py.keys rest)
              [] [] k0 v0) as (k & v & l1 & l2 & Hk & Hv & Hsplit & H1 & H2).
  - simpl. now rewrite key_eqb_refl.
  - intros x [].
  - intros x [].
  - intros x Hx. apply Hget. now right.
  - simpl in Hsplit.
    change (k0 :: Py.keys rest) with (Py.keys ((k0, v0) :: rest)) in Hsplit.
    unfold Py.keys in Hsplit.
    apply map_eq_app in Hsplit. destruct Hsplit as (d1 & d2' & Hdata & Hd1 & Hd2).
    destruct d2' as [|[k' v'] d2]; [discriminate|]. simpl in Hd2.
    injection Hd2 as -> Hd2.
    assert (Hin : In (k, v') ((k0, v0) :: rest))
      by (rewrite Hdata; apply in_or_app; right; now left).
    assert (v' = v) as ->
      by (apply (get_In _ _ _ Hnd) in Hin; congruence).
    exists k, v, d1, d2. split; [|split; [exact Hdata|split]].
    + unfold smallestSize.
      change (Py.min_key (Py.keys ((k0, v0) :: rest))
                (Py.get ((k0, v0) :: rest)))
        with (Py.min_loop (Py.get ((k0, v0) :: rest)) k0 (Py.keys rest)).
      rewrite Hk. unfold Py.bind, Py.getitem_dict. now rewrite Hv.
    + intros k'' v'' Hin''.
      pose proof (get_In _ _ _ Hnd Hin'') as Hg.
      rewrite Hdata in Hin''. apply in_app_or in Hin''.
      destruct Hin'' as [Hin''|[Heq|Hin'']].
      * destruct (H1 k'') as (vx & Hvx & ?).
        { rewrite <- Hd1. change k'' with (fst (k'', v'')). now apply in_map. }
        rewrite Hg in Hvx. injection Hvx as <-. lia.
      * injection Heq as <- <-. lia.
      * destruct (H2 k'') as (vx & Hvx & ?).
        { rewrite <- Hd2. change k'' with (fst (k'', v'')). now apply in_map. }
        rewrite Hg in Hvx. injection Hvx as <-. lia.
    + intros k'' v'' Hin''.
      assert (Hg : Py.get ((k0, v0) :: rest) k'' = Some v'').
      { apply get_In; [exact Hnd|]. rewrite Hdata. apply in_or_app. now left. }
      destruct (H1 k'') as (vx & Hvx & ?).
      { rewrite <- Hd1. change k'' with (fst (k'', v'')). now apply in_map. }
      rewrite Hg in Hvx. injection Hvx as <-. lia.
Qed.

Lemma smallestSize_first_minimum_witness :
  NoDup (Py.keys [("64k", 9); ("1m", 7); ("2m", 8); ("3m", 7)]) /\
  [("64k", 9); ("1m", 7); ("2m", 8); ("3m", 7)] <> [] /\
  exists (k : string) (v : Z) (before after : dict string),
    smallestSize [("64k", 9); ("1m", 7); ("2m", 8); ("3m", 7)] = Ok (k, v) /\
    [("64k", 9); ("1m", 7); ("2m", 8); ("3m", 7)]
    = (before ++ (k, v) :: after)%list /\
    (forall k' v',
        In (k', v') [("64k", 9); ("1m", 7); ("2m", 8); ("3m", 7)] ->
        v <= v') /\
    (forall k' v', In (k', v') before -> v < v').
Proof.
  assert (Hnd : NoDup (Py.keys [("64k", 9); ("1m", 7); ("2m", 8); ("3m", 7)])).
  { change (NoDup (nodup string_dec ["64k"; "1m"; "2m"; "3m"])).
    apply NoDup_nodup. }
  split; [exact Hnd|]. split; [discriminate|].
  apply (smallestSize_first_minimum string Key_string
           [("64k", 9); ("1m", 7); ("2m", 8); ("3m", 7)]);
    [exact Hnd|discriminate].
Defined.

(** C7. For every combination of the four optional arguments, a
    compression run executes, for each directory of the listing and in
    listing order, exactly the command [binary a -mx9], then the switches
    [-md], [-mfb], [-ms], [-mmt] of the arguments that are non-empty or
    non-zero, in that order, then [--], [<directory>.7z], [<directory>];
    the two trailing arguments are removed after each run, so the list is
    back to the shared part when the loop ends and every directory gets
    the same switches.  (The binary's path comes from [shutil.which]; it is
    not the string [--].) *)
Theorem runCMD_command_per_directory :
  forall (sevenzip : list string -> list entry -> Z * option Z)
         (path : string) (dict_size : option string) (word_size : option Z)
         (block_size : option string) (threads : option Z) (w : world),
    path <> "--" ->
    exists w1,
      runCMD_cmd sevenzip path dict_size word_size block_size threads w
      = Ok (([path; "a"; "-mx9"]
             ++ expected_flags dict_size word_size block_size threads
             ++ ["--"])%list, w1) /\
      runCMD sevenzip path dict_size word_size block_size threads w
      = Ok w1 /\
      map fst (calls w1)
      = (map fst (calls w)
         ++ map (expected_command path dict_size word_size block_size
                   threads) (directories w))%list.
Proof.
  intros sevenzip path dict_size word_size block_size threads w Hpath.
  unfold runCMD, runCMD_cmd.
  rewrite runCMD_flags_shape, switches_expected by exact Hpath.
  cbn [Py.bind].
  destruct (runCMD_loop_commands sevenzip (directories w)
              ([path; "a"; "-mx9"]
               ++ expected_flags dict_size word_size block_size threads
               ++ ["--"])%list w) as [Hcmd Hcalls].
  destruct (runCMD_loop sevenzip (directories w) _ w) as [cmd w1].
  cbn [fst snd] in Hcmd, Hcalls. subst cmd.
  exists w1. split; [reflexivity|]. split; [reflexivity|].
  rewrite Hcalls. f_equal. apply map_ext. intros directory.
  unfold expected_command. cbn [app]. now rewrite <- app_assoc.
Qed.

Lemma runCMD_command_per_directory_witness :
  "/usr/bin/7z" <> "--" /\
  exists w1,
    runCMD_cmd sevenzip_1000 "/usr/bin/7z" (Some "4m") (Some 32) (Some "")
      (Some 0) world_10MB
    = Ok (["/usr/bin/7z"; "a"; "-mx9"; "-md4m"; "-mfb32"; "--"], w1) /\
    runCMD sevenzip_1000 "/usr/bin/7z" (Some "4m") (Some 32) (Some "")
      (Some 0) world_10MB = Ok w1 /\
    map fst (calls w1)
    = [["/usr/bin/7z"; "a"; "-mx9"; "-md4m"; "-mfb32"; "--"; "A.7z"; "A"];
       ["/usr/bin/7z"; "a"; "-mx9"; "-md4m"; "-mfb32"; "--"; "B.7z"; "B"]].
Proof.
  split; [discriminate|].
  apply (runCMD_command_per_directory sevenzip_1000 "/usr/bin/7z"
           (Some "4m") (Some 32) (Some "") (Some 0) world_10MB).
  discriminate.
Defined.

(** C8. [removeArchives] leaves no regular file ending in [.7z] in the
    working directory (and nothing else is removed); [main] starts with
    it, so that its outcome is that of a start without archives; a sweep
    that starts without archives ends without archives, so the next sweep
    starts clean too; and in each of the four sweeps a candidate that is
    run has its size recorded and the archives removed before the loop
    goes on: the next candidate starts in a working directory with no
    archive. *)
Theorem archives_removed_between_candidates :
  forall (sevenzip : list string -> list entry -> Z * option Z)
         (path : string),
    (forall w,
        archives (removeArchives w) = [] /\
        (forall thing, In thing (cwd (removeArchives w)) <->
                       In thing (cwd w) /\ is_archive thing = false)) /\
    (forall w, main sevenzip path w = main sevenzip path (removeArchives w)) /\
    (forall w info w',
        archives w = [] ->
        testAllDictSizes sevenzip path w = Ok (info, w') ->
        archives w' = []) /\
    (forall dict_size w info w',
        archives w = [] ->
        testAllWordSizes sevenzip path dict_size w = Ok (info, w') ->
        archives w' = []) /\
    (forall dict_size word_size w info w',
        archives w = [] ->
        testAllBlockSizes sevenzip path dict_size word_size w
        = Ok (info, w') ->
        archives w' = []) /\
    (forall dict_size word_size block_size w info w',
        archives w = [] ->
        testNThreads sevenzip path dict_size word_size block_size w
        = Ok (info, w') ->
        archives w' = []) /\
    (forall bound size rest info w,
        dict_stop bound size = Ok false ->
        exists w1,
          runCMD sevenzip path (Some size) None None None w = Ok w1 /\
          archives (removeArchives w1) = [] /\
          testAllDictSizes_loop sevenzip path bound (size :: rest) info w
          = testAllDictSizes_loop sevenzip path bound rest
              (Py.set size (getTotalSizeOfArchives w1) info)
              (removeArchives w1)) /\
    (forall dict_size size rest info w,
        exists w1,
          runCMD sevenzip path dict_size (Some size) None None w = Ok w1 /\
          archives (removeArchives w1) = [] /\
          testAllWordSizes_loop sevenzip path dict_size (size :: rest) info w
          = testAllWordSizes_loop sevenzip path dict_size rest
              (Py.set size (getTotalSizeOfArchives w1) info)
              (removeArchives w1)) /\
    (forall dict_size word_size bound size rest info w,
        block_stop bound size = Ok false ->
        exists w1,
          runCMD sevenzip path dict_size word_size (Some size) None w
          = Ok w1 /\
          archives (removeArchives w1) = [] /\
          testAllBlockSizes_loop sevenzip path dict_size word_size bound
            (size :: rest) info w
          = testAllBlockSizes_loop sevenzip path dict_size word_size bound
              rest (Py.set size (getTotalSizeOfArchives w1) info)
              (removeArchives w1)) /\
    (forall dict_size word_size block_size i rest info w,
        exists w1,
          runCMD sevenzip path dict_size word_size block_size (Some i) w
          = Ok w1 /\
          archives (removeArchives w1) = [] /\
          testNThreads_loop sevenzip path dict_size word_size block_size
            (i :: rest) info w
          = testNThreads_loop sevenzip path dict_size word_size block_size
              rest (Py.set i (getTotalSizeOfArchives w1) info)
              (removeArchives w1)).
Proof.
  intros sevenzip path. repeat apply conj.
  - intros w. split; [apply removeArchives_archives|].
    intros thing. unfold removeArchives, with_cwd. simpl.
    rewrite filter_In, negb_true_iff. reflexivity.
  - intros w. unfold main. now rewrite removeArchives_idem.
  - intros w info w' Hw. unfold testAllDictSizes.
    destruct (minimumLargestDictSize w) as [bound|e]; [|discriminate].
    cbn [Py.bind]. now apply testAllDictSizes_loop_clean.
  - intros dict_size w info w' Hw. unfold testAllWordSizes.
    now apply testAllWordSizes_loop_clean.
  - intros dict_size word_size w info w' Hw. unfold testAllBlockSizes.
    destruct (minimumLargestBlockSize w) as [bound|e]; [|discriminate].
    cbn [Py.bind]. now apply testAllBlockSizes_loop_clean.
  - intros dict_size word_size block_size w info w' Hw. unfold testNThreads.
    destruct (cpu_count w) as [n|]; [|discriminate].
    now apply testNThreads_loop_clean.
  - intros bound size rest info w Hgo.
    destruct (runCMD_total sevenzip path (Some size) None None None w)
      as [w1 Hrun].
    exists w1. split; [exact Hrun|].
    split; [apply removeArchives_archives|].
    cbn [testAllDictSizes_loop]. unfold dict_stop in Hgo.
    destruct (Py.int (Py.init size)) as [n|e]; [|discriminate].
    cbn [Py.bind] in *. rewrite Hgo, Hrun. reflexivity.
  - intros dict_size size rest info w.
    destruct (runCMD_total sevenzip path dict_size (Some size) None None w)
      as [w1 Hrun].
    exists w1. split; [exact Hrun|].
    split; [apply removeArchives_archives|].
    cbn [testAllWordSizes_loop]. now rewrite Hrun.
  - intros dict_size word_size bound size rest info w Hgo.
    destruct (runCMD_total sevenzip path dict_size word_size (Some size)
                None w) as [w1 Hrun].
    exists w1. split; [exact Hrun|].
    split; [apply removeArchives_archives|].
    cbn [testAllBlockSizes_loop]. unfold block_stop in Hgo.
    rewrite Hgo, Hrun. reflexivity.
  - intros dict_size word_size block_size i rest info w.
    destruct (runCMD_total sevenzip path dict_size word_size block_size
                (Some i) w) as [w1 Hrun].
    exists w1. split; [exact Hrun|].
    split; [apply removeArchives_archives|].
    cbn [testNThreads_loop]. now rewrite Hrun.
Qed.

(** C9. Applied to an empty result table, [smallestSize] raises (the
    minimum of an empty sequence is a ValueError) instead of returning a
    (candidate, size) pair or a default. *)
Theorem smallestSize_empty_raises :
  forall (K : Type) (KK : Key K),
    smallestSize (K := K) [] = Raise ValueError.
Proof. intros K KK. reflexivity. Qed.




(* ================================================================== *)
(** ** What a compression run leaves untouched *)
(* ================================================================== *)

Lemma endswith_refl (s : string) : Py.endswith s s = true.
Proof. destruct s; simpl; [reflexivity|]. now rewrite Ascii.eqb_refl, String.eqb_refl. Qed.

Lemma endswith_app (s suf : string) : Py.endswith (s ++ suf) suf = true.
Proof.
  induction s as [|c s IH]; [apply endswith_refl|].
  cbn [append Py.endswith]. rewrite IH.
  now destruct (String.eqb (String c (s ++ suf)) suf).
Qed.

Lemma after_dashes_found (pre rest : list string) (a : string) :
  ~ In "--" pre ->
  after_dashes (pre ++ "--" :: a :: rest) = Some a.
Proof.
  induction pre as [|x pre IH]; intros Hpre; [reflexivity|].
  cbn [app after_dashes].
  destruct (String.eqb_spec x "--") as [->|_];
    [exfalso; apply Hpre; now left|].
  apply IH. intros Hin. apply Hpre. now right.
Qed.

Lemma switches_no_dashes
  (dict_size : option string) (word_size : option Z)
  (block_size : option string) (threads : option Z) :
  ~ In "--" (switches dict_size word_size block_size threads).
Proof.
  unfold switches.
  destruct (truthy_str dict_size), (truthy_int word_size),
    (truthy_str block_size), (truthy_int threads); simpl; intros Hin;
    repeat match goal with
           | H : _ \/ _ |- _ => destruct H
           | H : False |- _ => contradiction
           | H : _ = "--" |- _ => discriminate H
           end.
Qed.

(** Writing an archive changes no entry that is not an archive, and no
    line of [du]. *)
Lemma write_file_others (name : string) (size : Z) (fs : list entry) :
  Py.endswith name ".7z" = true ->
  filter (fun thing => negb (is_archive thing)) (write_file name size fs)
  = filter (fun thing => negb (is_archive thing)) fs.
Proof.
  intros Hname. induction fs as [|e fs IH]; cbn [write_file filter].
  - unfold is_archive. cbn [is_file entry_name]. now rewrite Hname.
  - destruct (String.eqb_spec (entry_name e) name) as [He|_].
    + destruct e as [n mb|n sz]; [reflexivity|].
      cbn [entry_name] in He. subst n. cbn [filter].
      unfold is_archive. cbn [is_file entry_name]. now rewrite Hname.
    + cbn [filter]. now rewrite IH.
Qed.

Lemma write_file_du_words (name : string) (size : Z) (fs : list entry) :
  du_words (write_file name size fs) = du_words fs.
Proof.
  unfold du_words. induction fs as [|e fs IH]; [reflexivity|].
  cbn [write_file]. destruct (String.eqb (entry_name e) name).
  - now destruct e.
  - cbn [flat_map]. now rewrite IH.
Qed.

Lemma write_file_du_sm (name : string) (size : Z) (fs : list entry) :
  du_sm (write_file name size fs) = du_sm fs.
Proof. unfold du_sm. now rewrite write_file_du_words. Qed.

Lemma removeArchives_du_words (w : world) :
  du_words (cwd (removeArchives w)) = du_words (cwd w).
Proof.
  unfold removeArchives, with_cwd, du_words. cbn [cwd].
  induction (cwd w) as [|e fs IH]; [reflexivity|].
  cbn [filter flat_map]. destruct e as [n mb|n sz].
  - cbn [is_archive is_file andb negb flat_map]. now rewrite IH.
  - destruct (is_archive (File n sz)); cbn [negb flat_map du_word app];
      exact IH.
Qed.

Lemma removeArchives_du_sm (w : world) :
  du_sm (cwd (removeArchives w)) = du_sm (cwd w).
Proof. unfold du_sm. now rewrite removeArchives_du_words. Qed.

Lemma removeArchives_directories (w : world) :
  directories (removeArchives w) = directories w.
Proof.
  unfold removeArchives, with_cwd, directories. cbn [cwd].
  induction (cwd w) as [|e fs IH]; [reflexivity|].
  cbn [filter flat_map]. destruct e as [n mb|n sz].
  - cbn [is_archive is_file andb negb flat_map]. now rewrite IH.
  - destruct (is_archive (File n sz)); cbn [negb flat_map is_dir andb app];
      exact IH.
Qed.

Section RunLeaves.
Variable sevenzip : list string -> list entry -> Z * option Z.
Variable path : string.

Lemma subprocess_run_du_sm (cmd : list string) (w : world) :
  du_sm (cwd (subprocess_run sevenzip cmd w)) = du_sm (cwd w).
Proof.
  unfold subprocess_run. destruct (sevenzip cmd (cwd w)) as [rc [size|]];
    [|reflexivity].
  destruct (archive_arg cmd) as [archive|]; [|reflexivity].
  cbn [cwd]. apply write_file_du_sm.
Qed.

Lemma runCMD_loop_keeps (dirs cmd : list string) :
  forall w,
    directories (snd (runCMD_loop sevenzip dirs cmd w)) = directories w /\
    du_sm (cwd (snd (runCMD_loop sevenzip dirs cmd w))) = du_sm (cwd w) /\
    cpu_count (snd (runCMD_loop sevenzip dirs cmd w)) = cpu_count w.
Proof.
  revert cmd. induction dirs as [|d dirs IH]; intros cmd w;
    cbn [runCMD_loop snd]; [auto|].
  destruct (IH (Py.del_last2 (cmd ++ [(d ++ ".7z")%string; d]))
              (subprocess_run sevenzip (cmd ++ [(d ++ ".7z")%string; d]) w))
    as (Hd & Hdu & Hcpu).
  rewrite Hd, Hdu, Hcpu, subprocess_run_directories, subprocess_run_du_sm,
    subprocess_run_cpu_count. auto.
Qed.

Lemma runCMD_keeps
  (dict_size : option string) (word_size : option Z)
  (block_size : option string) (threads : option Z) (w w1 : world) :
  runCMD sevenzip path dict_size word_size block_size threads w = Ok w1 ->
  directories w1 = directories w /\
  du_sm (cwd w1) = du_sm (cwd w) /\
  cpu_count w1 = cpu_count w.
Proof.
  unfold runCMD, runCMD_cmd.
  destruct (runCMD_flags path dict_size word_size block_size threads)
    as [cmd|e]; [|discriminate].
  cbn [Py.bind].
  pose proof (runCMD_loop_keeps (directories w) cmd w) as Hkeeps.
  destruct (runCMD_loop sevenzip (directories w) cmd w) as [c w'].
  intros [= <-]. exact Hkeeps.
Qed.

(** With the archive named right after [--], the loop only writes files
    whose name ends in [.7z]. *)
Lemma runCMD_loop_others (dirs cmd : list string) :
  (forall d, archive_arg (cmd ++ [(d ++ ".7z")%string; d])
             = Some (d ++ ".7z")%string) ->
  forall w,
    filter (fun thing => negb (is_archive thing))
      (cwd (snd (runCMD_loop sevenzip dirs cmd w)))
    = filter (fun thing => negb (is_archive thing)) (cwd w).
Proof.
  intros Harg. induction dirs as [|d dirs IH]; intros w;
    cbn [runCMD_loop snd]; [reflexivity|].
  rewrite del_last2_app, IH. unfold subprocess_run.
  destruct (sevenzip _ (cwd w)) as [rc [size|]]; [|reflexivity].
  rewrite Harg. cbn [cwd]. apply write_file_others, endswith_app.
Qed.

Lemma runCMD_others
  (dict_size : option string) (word_size : option Z)
  (block_size : option string) (threads : option Z) (w w1 : world) :
  path <> "--" ->
  runCMD sevenzip path dict_size word_size block_size threads w = Ok w1 ->
  cwd (removeArchives w1) = cwd (removeArchives w).
Proof.
  intros Hpath. unfold runCMD, runCMD_cmd.
  rewrite runCMD_flags_shape by exact Hpath. cbn [Py.bind].
  match goal with
  | |- context [runCMD_loop sevenzip ?dirs ?cmd w] =>
      pose proof (runCMD_loop_others dirs cmd) as Hothers;
      destruct (runCMD_loop sevenzip dirs cmd w) as [c w'] eqn:E
  end.
  intros [= <-]. cbn [snd] in Hothers.
  unfold removeArchives, with_cwd. cbn [cwd].
  replace w' with (snd (c, w')) by reflexivity. rewrite <- E.
  apply Hothers. intros d. unfold archive_arg. cbn [app tl].
  rewrite <- app_assoc. cbn [app].
  change ("a" :: "-mx9"
          :: switches dict_size word_size block_size threads
             ++ "--" :: (d ++ ".7z")%string :: [d])%list
    with (("a" :: "-mx9"
           :: switches dict_size word_size block_size threads)
          ++ "--" :: (d ++ ".7z")%string :: [d])%list.
  apply after_dashes_found. intros [Hx|[Hx|Hin]]; try discriminate.
  now apply switches_no_dashes in Hin.
Qed.

End RunLeaves.

Lemma getLargestDirectorySize_du_sm (w w' : world) :
  du_sm (cwd w) = du_sm (cwd w') ->
  getLargestDirectorySize w = getLargestDirectorySize w'.
Proof. intros Hdu. unfold getLargestDirectorySize. now rewrite Hdu. Qed.

Lemma base_removeArchives (w : world) : base (removeArchives w) = base w.
Proof. unfold base. now rewrite removeArchives_idem. Qed.

(** Two states with the same base have the same listing and the same
    answer of the size probe. *)
Lemma base_directories (w w' : world) :
  base w = base w' -> directories w = directories w'.
Proof.
  intros Hbase. pose proof (f_equal fst Hbase) as Hcwd. cbn [base fst] in Hcwd.
  rewrite <- (removeArchives_directories w), <- (removeArchives_directories w').
  unfold directories. now rewrite Hcwd.
Qed.

Lemma base_getLargestDirectorySize (w w' : world) :
  base w = base w' ->
  getLargestDirectorySize w = getLargestDirectorySize w'.
Proof.
  intros Hbase. pose proof (f_equal fst Hbase) as Hcwd. cbn [base fst] in Hcwd.
  apply getLargestDirectorySize_du_sm.
  rewrite <- (removeArchives_du_sm w), <- (removeArchives_du_sm w').
  now rewrite Hcwd.
Qed.

Lemma base_cpu_count (w w' : world) :
  base w = base w' -> cpu_count w = cpu_count w'.
Proof. intros Hbase. exact (f_equal snd Hbase). Qed.

Section Bases.
Variable sevenzip : list string -> list entry -> Z * option Z.
Variable path : string.
Hypothesis path_not_dashes : path <> "--".

Lemma runCMD_base
  (dict_size : option string) (word_size : option Z)
  (block_size : option string) (threads : option Z) (w w1 : world) :
  runCMD sevenzip path dict_size word_size block_size threads w = Ok w1 ->
  base w1 = base w.
Proof.
  intros Hrun. unfold base.
  rewrite (runCMD_others sevenzip path _ _ _ _ w w1 path_not_dashes Hrun).
  now destruct (runCMD_keeps sevenzip path _ _ _ _ w w1 Hrun) as (_ & _ & ->).
Qed.

(** Finish a loop step for the base: the run keeps it, and so does the
    removal of the archives. *)
Ltac base_after_run IH :=
  match goal with
  | |- context [Py.bind (runCMD ?a ?b ?c ?d ?e ?f ?g) _] =>
      let Hrun := fresh "Hrun" in
      destruct (runCMD a b c d e f g) as [w1|e1] eqn:Hrun; cbn [Py.bind];
      [intros Hloop; apply IH in Hloop;
       rewrite Hloop, base_removeArchives;
       exact (runCMD_base _ _ _ _ _ _ Hrun)
      | discriminate]
  end.

Lemma testAllDictSizes_loop_base
  (bound : int_or_none) (sizes : list string) :
  forall info w info' w',
    testAllDictSizes_loop sevenzip path bound sizes info w = Ok (info', w') ->
    base w' = base w.
Proof.
  induction sizes as [|size rest IH]; intros info w info' w';
    cbn [testAllDictSizes_loop].
  - now intros [= _ <-].
  - destruct (Py.int (Py.init size)) as [n|e]; [|discriminate].
    cbn [Py.bind].
    destruct (Py.gt (Some n) bound) as [[|]|e]; cbn [Py.bind];
      [now intros [= _ <-]| |discriminate].
    base_after_run IH.
Qed.

Lemma testAllWordSizes_loop_base
  (dict_size : option string) (sizes : list Z) :
  forall info w info' w',
    testAllWordSizes_loop sevenzip path dict_size sizes info w
    = Ok (info', w') ->
    base w' = base w.
Proof.
  induction sizes as [|size rest IH]; intros info w info' w';
    cbn [testAllWordSizes_loop].
  - now intros [= _ <-].
  - base_after_run IH.
Qed.

Lemma testAllBlockSizes_loop_base
  (dict_size : option string) (word_size : option Z)
  (bound : int_or_none) (sizes : list string) :
  forall info w info' w',
    testAllBlockSizes_loop sevenzip path dict_size word_size bound sizes
      info w = Ok (info', w') ->
    base w' = base w.
Proof.
  induction sizes as [|size rest IH]; intros info w info' w';
    cbn [testAllBlockSizes_loop].
  - now intros [= _ <-].
  - destruct (if Py.endswith size "m"
              then n <- Py.int (Py.init size) ;; Py.gt (Some n) bound
              else Ok false) as [[|]|e]; cbn [Py.bind];
      [now intros [= _ <-]| |discriminate].
    base_after_run IH.
Qed.

Lemma testNThreads_loop_base
  (dict_size : option string) (word_size : option Z)
  (block_size : option string) (counts : list Z) :
  forall info w info' w',
    testNThreads_loop sevenzip path dict_size word_size block_size counts
      info w = Ok (info', w') ->
    base w' = base w.
Proof.
  induction counts as [|i rest IH]; intros info w info' w';
    cbn [testNThreads_loop].
  - now intros [= _ <-].
  - base_after_run IH.
Qed.

Lemma testAllDictSizes_base (w : world) (info : dict string) (w' : world) :
  testAllDictSizes sevenzip path w = Ok (info, w') -> base w' = base w.
Proof.
  unfold testAllDictSizes.
  destruct (minimumLargestDictSize w) as [bound|e]; [|discriminate].
  apply testAllDictSizes_loop_base.
Qed.

Lemma testAllWordSizes_base
  (dict_size : option string) (w : world) (info : dict Z) (w' : world) :
  testAllWordSizes sevenzip path dict_size w = Ok (info, w') ->
  base w' = base w.
Proof. apply testAllWordSizes_loop_base. Qed.

Lemma testAllBlockSizes_base
  (dict_size : option string) (word_size : option Z)
  (w : world) (info : dict string) (w' : world) :
  testAllBlockSizes sevenzip path dict_size word_size w = Ok (info, w') ->
  base w' = base w.
Proof.
  unfold testAllBlockSizes.
  destruct (minimumLargestBlockSize w) as [bound|e]; [|discriminate].
  apply testAllBlockSizes_loop_base.
Qed.

Lemma testNThreads_base
  (dict_size : option string) (word_size : option Z)
  (block_size : option string) (w : world) (info : dict Z) (w' : world) :
  testNThreads sevenzip path dict_size word_size block_size w
  = Ok (info, w') ->
  base w' = base w.
Proof.
  unfold testNThreads. destruct (cpu_count w) as [n|]; [|discriminate].
  apply testNThreads_loop_base.
Qed.

End Bases.


(** X2. A compression run creates or overwrites only regular files whose
    name ends in [.7z]: an entry that is not such a file is in the working
    directory after the run exactly when it was there before, so removing
    the archives after the run gives the directory that removing them
    before it would have given. *)
Theorem runCMD_touches_only_archives :
  forall (sevenzip : list string -> list entry -> Z * option Z)
         (path : string) (dict_size : option string) (word_size : option Z)
         (block_size : option string) (threads : option Z) (w : world),
    path <> "--" ->
    exists w1,
      runCMD sevenzip path dict_size word_size block_size threads w
      = Ok w1 /\
      cwd (removeArchives w1) = cwd (removeArchives w) /\
      (forall thing, is_archive thing = false ->
                     (In thing (cwd w1) <-> In thing (cwd w))).
Proof.
  intros sevenzip path dict_size word_size block_size threads w Hpath.
  destruct (runCMD_total sevenzip path dict_size word_size block_size
              threads w) as [w1 Hrun].
  pose proof (runCMD_others sevenzip path _ _ _ _ w w1 Hpath Hrun) as Hcwd.
  exists w1. split; [exact Hrun|]. split; [exact Hcwd|].
  intros thing Hthing.
  assert (Hin : forall w0, In thing (cwd w0)
                           <-> In thing (cwd (removeArchives w0))).
  { intros w0. unfold removeArchives, with_cwd. cbn [cwd].
    rewrite filter_In, Hthing. simpl. tauto. }
  now rewrite (Hin w1), (Hin w), Hcwd.
Qed.

Lemma runCMD_touches_only_archives_witness :
  "/usr/bin/7z" <> "--" /\
  exists w1,
    runCMD sevenzip_1000 "/usr/bin/7z" (Some "4m") (Some 32) None None
      world_my_venv = Ok w1 /\
    cwd (removeArchives w1) = cwd (removeArchives world_my_venv) /\
    (forall thing, is_archive thing = false ->
                   (In thing (cwd w1) <-> In thing (cwd world_my_venv))).
Proof.
  split; [discriminate|].
  apply (runCMD_touches_only_archives sevenzip_1000 "/usr/bin/7z"
           (Some "4m") (Some 32) None None world_my_venv).
  discriminate.
Defined.

(* ================================================================== *)
(** ** The two bounds *)
(* ================================================================== *)

(** In an ascending list, the first element above [x] is the least one. *)
Lemma find_first_above (x : Z) (l : list Z) :
  StronglySorted Z.lt l ->
  forall b,
    find (Z.ltb x) l = Some b ->
    In b l /\ x < b /\ (forall v, In v l -> x < v -> b <= v).
Proof.
  intros Hsorted. induction Hsorted as [|a l Hsorted IH Hall];
    intros b; cbn [find]; [discriminate|].
  destruct (Z.ltb_spec x a) as [Hlt|Hge].
  - intros [= <-]. split; [now left|]. split; [exact Hlt|].
    intros v [<-|Hv] _; [lia|].
    rewrite Forall_forall in Hall. specialize (Hall v Hv). lia.
  - intros Hfind. destruct (IH b Hfind) as (Hin & Hb & Hleast).
    split; [now right|]. split; [exact Hb|].
    intros v [<-|Hv] Hxv; [lia|auto].
Qed.

Lemma find_none_above (x : Z) (l : list Z) :
  (forall v, In v l -> v <= x) -> find (Z.ltb x) l = None.
Proof.
  induction l as [|a l IH]; intros Hall; cbn [find]; [reflexivity|].
  destruct (Z.ltb_spec x a) as [Hlt|_].
  - specialize (Hall a (or_introl eq_refl)). lia.
  - apply IH. intros v Hv. apply Hall. now right.
Qed.

Lemma find_app_some {A : Type} (p : A -> bool) (l1 l2 : list A) (b : A) :
  find p l1 = Some b -> find p (l1 ++ l2) = Some b.
Proof.
  induction l1 as [|a l1 IH]; cbn [find app]; [discriminate|].
  destruct (p a); auto.
Qed.

Lemma find_some_above (x : Z) (l : list Z) (v : Z) :
  In v l -> x < v -> exists b, find (Z.ltb x) l = Some b.
Proof.
  induction l as [|a l IH]; intros Hin Hxv; [contradiction|].
  cbn [find]. destruct (Z.ltb_spec x a) as [_|Hge]; [eauto|].
  destruct Hin as [->|Hin]; [lia|auto].
Qed.

(** The loop of [minimumLargestDictSize] returns the first number above
    the largest directory size among the candidates that contain an [m]. *)
Lemma minimumLargestDictSize_loop_find (largest : Z) (sizes : list string) :
  forallb (fun size => implb (has_m size) (readable size)) sizes = true ->
  minimumLargestDictSize_loop largest sizes
  = Ok (find (Z.ltb largest) (numbers has_m sizes)).
Proof.
  unfold numbers, has_m, readable, number.
  induction sizes as [|size rest IH]; intros Hread; [reflexivity|].
  cbn [forallb] in Hread. apply andb_true_iff in Hread.
  destruct Hread as [Hsize Hrest].
  cbn [minimumLargestDictSize_loop filter].
  destruct (Py.contains "m" size); [|now apply IH].
  cbn [map find]. destruct (Py.int (Py.init size)) as [n|e];
    [|discriminate]. cbn [Py.bind].
  destruct (Z.ltb largest n); [reflexivity|now apply IH].
Qed.

Lemma minimumLargestBlockSize_loop_find (largest : Z) (sizes : list string) :
  forallb (fun size => implb (ends_m_or_g size) (readable size)) sizes
  = true ->
  minimumLargestBlockSize_loop largest sizes
  = if Z.ltb largest 1024
    then Ok (find (Z.ltb largest) (numbers ends_m_or_g sizes))
    else Ok None.
Proof.
  unfold numbers, ends_m_or_g, readable, number.
  induction sizes as [|size rest IH]; intros Hread.
  - simpl. now destruct (Z.ltb largest 1024).
  - cbn [forallb] in Hread. apply andb_true_iff in Hread.
    destruct Hread as [Hsize Hrest].
    cbn [minimumLargestBlockSize_loop filter]. rewrite (IH Hrest).
    destruct (Py.endswith size "m" || Py.endswith size "g");
      [|reflexivity].
    cbn [map find]. destruct (Z.ltb largest 1024); [|reflexivity].
    destruct (Py.int (Py.init size)) as [n|e]; [|discriminate].
    cbn [Py.bind]. now destruct (Z.ltb largest n).
Qed.

Lemma dictsize_numbers :
  numbers has_m values.dictsize
  = [1; 2; 3; 4; 6; 8; 12; 16; 24; 32; 48; 64; 96; 128; 192; 256; 384; 512;
     768; 1024; 1536].
Proof. vm_compute. reflexivity. Qed.

Lemma blocksize_numbers :
  numbers ends_m values.blocksize
  = [1; 2; 3; 4; 6; 8; 12; 16; 32; 64; 128; 256; 512].
Proof. vm_compute. reflexivity. Qed.

Lemma blocksize_numbers_m_or_g :
  numbers ends_m_or_g values.blocksize
  = (numbers ends_m values.blocksize ++ [1; 2; 4; 8; 16; 32; 64])%list.
Proof. vm_compute. reflexivity. Qed.

Ltac ascending :=
  apply Sorted_StronglySorted; [intros x y z; lia|];
  repeat constructor; reflexivity.

Lemma dictsize_numbers_ascending :
  StronglySorted Z.lt (numbers has_m values.dictsize).
Proof. rewrite dictsize_numbers. ascending. Qed.

Lemma blocksize_numbers_ascending :
  StronglySorted Z.lt (numbers ends_m values.blocksize).
Proof. rewrite blocksize_numbers. ascending. Qed.

(** X3. [minimumLargestDictSize] returns the least number above the
    largest directory size among the dictionary candidates that contain
    an [m] (so ['64k'] plays no part); when the largest directory has
    1536 MB or more there is no such number and it returns [None]. *)
Theorem minimumLargestDictSize_least_above :
  forall (w : world) (largest : Z),
    getLargestDirectorySize w = Ok largest ->
    (largest < 1536 ->
     exists b,
       minimumLargestDictSize w = Ok (Some b) /\
       In b (numbers has_m values.dictsize) /\
       largest < b /\
       (forall v, In v (numbers has_m values.dictsize) ->
                  largest < v -> b <= v)) /\
    (1536 <= largest -> minimumLargestDictSize w = Ok None).
Proof.
  intros w largest Hlargest.
  unfold minimumLargestDictSize. rewrite Hlargest. cbn [Py.bind].
  rewrite minimumLargestDictSize_loop_find by (vm_compute; reflexivity).
  split.
  - intros Hsmall.
    destruct (find_some_above largest (numbers has_m values.dictsize) 1536)
      as [b Hfind]; [rewrite dictsize_numbers; simpl; tauto|lia|].
    exists b. rewrite Hfind. split; [reflexivity|].
    apply find_first_above; [apply dictsize_numbers_ascending|exact Hfind].
  - intros Hlarge. f_equal. apply find_none_above.
    rewrite dictsize_numbers. intros v Hv. simpl in Hv.
    repeat (destruct Hv as [<-|Hv]; [lia|]). contradiction.
Qed.

Lemma minimumLargestDictSize_least_above_witness :
  getLargestDirectorySize world_500MB = Ok 500 /\
  (500 < 1536 ->
   exists b,
     minimumLargestDictSize world_500MB = Ok (Some b) /\
     In b (numbers has_m values.dictsize) /\
     500 < b /\
     (forall v, In v (numbers has_m values.dictsize) -> 500 < v -> b <= v)) /\
  (1536 <= 500 -> minimumLargestDictSize world_500MB = Ok None).
Proof.
  split; [reflexivity|].
  apply (minimumLargestDictSize_least_above world_500MB 500). reflexivity.
Defined.

(** X4. [minimumLargestBlockSize] returns the least number above the
    largest directory size among the block candidates that end in [m],
    as long as that size is below 512 MB.  From 512 MB on it returns
    [None]: below 1024 MB because the gigabyte candidates are read as
    their bare numbers 1 to 64 and none exceeds the size, from 1024 MB
    because nothing is compared. *)
Theorem minimumLargestBlockSize_least_above :
  forall (w : world) (largest : Z),
    getLargestDirectorySize w = Ok largest ->
    (largest < 512 ->
     exists b,
       minimumLargestBlockSize w = Ok (Some b) /\
       In b (numbers ends_m values.blocksize) /\
       largest < b /\
       (forall v, In v (numbers ends_m values.blocksize) ->
                  largest < v -> b <= v)) /\
    (512 <= largest -> minimumLargestBlockSize w = Ok None).
Proof.
  intros w largest Hlargest.
  unfold minimumLargestBlockSize. rewrite Hlargest. cbn [Py.bind].
  rewrite minimumLargestBlockSize_loop_find by (vm_compute; reflexivity).
  rewrite blocksize_numbers_m_or_g.
  split.
  - intros Hsmall. destruct (Z.ltb_spec largest 1024) as [_|?]; [|lia].
    destruct (find_some_above largest (numbers ends_m values.blocksize) 512)
      as [b Hfind]; [rewrite blocksize_numbers; simpl; tauto|lia|].
    exists b. rewrite (find_app_some _ _ _ _ Hfind). split; [reflexivity|].
    apply find_first_above; [apply blocksize_numbers_ascending|exact Hfind].
  - intros Hlarge. destruct (Z.ltb largest 1024); [|reflexivity].
    f_equal. apply find_none_above.
    rewrite blocksize_numbers. intros v Hv. simpl in Hv.
    repeat (destruct Hv as [<-|Hv]; [lia|]). contradiction.
Qed.

Lemma minimumLargestBlockSize_least_above_witness :
  getLargestDirectorySize world_10MB = Ok 10 /\
  (10 < 512 ->
   exists b,
     minimumLargestBlockSize world_10MB = Ok (Some b) /\
     In b (numbers ends_m values.blocksize) /\
     10 < b /\
     (forall v, In v (numbers ends_m values.blocksize) -> 10 < v -> b <= v))
  /\
  (512 <= 10 -> minimumLargestBlockSize world_10MB = Ok None).
Proof.
  split; [reflexivity|].
  apply (minimumLargestBlockSize_least_above world_10MB 10). reflexivity.
Defined.

Lemma minimumLargestDictSize_find (w : world) (largest : Z) :
  getLargestDirectorySize w = Ok largest ->
  minimumLargestDictSize w
  = Ok (find (Z.ltb largest) (numbers has_m values.dictsize)).
Proof.
  intros Hlargest. unfold minimumLargestDictSize. rewrite Hlargest.
  cbn [Py.bind].
  now rewrite minimumLargestDictSize_loop_find by (vm_compute; reflexivity).
Qed.

Lemma minimumLargestBlockSize_find (w : world) (largest : Z) :
  getLargestDirectorySize w = Ok largest ->
  largest < 512 ->
  minimumLargestBlockSize w
  = Ok (find (Z.ltb largest) (numbers ends_m values.blocksize)) /\
  exists b, find (Z.ltb largest) (numbers ends_m values.blocksize) = Some b.
Proof.
  intros Hlargest Hsmall. unfold minimumLargestBlockSize. rewrite Hlargest.
  cbn [Py.bind].
  rewrite minimumLargestBlockSize_loop_find by (vm_compute; reflexivity).
  rewrite blocksize_numbers_m_or_g.
  destruct (Z.ltb_spec largest 1024) as [_|?]; [|lia].
  destruct (find_some_above largest (numbers ends_m values.blocksize) 512)
    as [b Hfind]; [rewrite blocksize_numbers; simpl; tauto|lia|].
  rewrite (find_app_some _ _ _ _ Hfind), Hfind. eauto.
Qed.

Lemma minimumLargestBlockSize_None (w : world) (largest : Z) :
  getLargestDirectorySize w = Ok largest ->
  512 <= largest ->
  minimumLargestBlockSize w = Ok None.
Proof.
  intros Hlargest Hlarge. unfold minimumLargestBlockSize. rewrite Hlargest.
  cbn [Py.bind].
  rewrite minimumLargestBlockSize_loop_find by (vm_compute; reflexivity).
  destruct (Z.ltb largest 1024); [|reflexivity].
  f_equal. apply find_none_above.
  rewrite blocksize_numbers_m_or_g, blocksize_numbers.
  intros v Hv. simpl in Hv.
  repeat (destruct Hv as [<-|Hv]; [lia|]). contradiction.
Qed.

(* ================================================================== *)
(** ** The pruned sweeps *)
(* ================================================================== *)

Lemma NoDup_take_while {A : Type} (p : A -> bool) (l : list A) :
  NoDup l -> NoDup (take_while p l).
Proof.
  induction 1 as [|a l Hnotin Hnd IH]; cbn [take_while]; [constructor|].
  destruct (p a); constructor; [|exact IH].
  intros Hin. apply Hnotin. clear -Hin.
  induction l as [|x l IHl]; cbn [take_while] in Hin; [contradiction|].
  destruct (p x); [|contradiction].
  destruct Hin as [->|Hin]; [now left|right; auto].
Qed.

Lemma NoDup_dictsize : NoDup values.dictsize.
Proof.
  change values.dictsize with (nodup string_dec values.dictsize).
  apply NoDup_nodup.
Qed.

Section PrunedSweeps.
Variable sevenzip : list string -> list entry -> Z * option Z.
Variable path : string.

(** With a bound, the dictionary sweep runs the candidates up to the first
    one whose number exceeds the bound. *)
Lemma testAllDictSizes_loop_take_while (b : Z) (sizes : list string) :
  forallb readable sizes = true ->
  forall info w,
    testAllDictSizes_loop sevenzip path (Some b) sizes info w
    = sweep (fun size => runCMD sevenzip path (Some size) None None None)
        (take_while (fun size => Z.leb (number size) b) sizes) info w.
Proof.
  unfold readable, number.
  induction sizes as [|size rest IH]; intros Hread info w; [reflexivity|].
  cbn [forallb] in Hread. apply andb_true_iff in Hread.
  destruct Hread as [Hsize Hrest].
  cbn [testAllDictSizes_loop take_while].
  destruct (Py.int (Py.init size)) as [n|e]; [|discriminate].
  cbn [Py.bind Py.gt]. rewrite Z.leb_antisym.
  destruct (Z.ltb b n); cbn [negb sweep]; [reflexivity|].
  destruct (runCMD sevenzip path (Some size) None None None w);
    cbn [Py.bind]; auto.
Qed.

(** The block sweep likewise, the candidates that do not end in [m] never
    stopping it. *)
Lemma testAllBlockSizes_loop_take_while
  (dict_size : option string) (word_size : option Z)
  (b : Z) (sizes : list string) :
  forallb (fun size => implb (ends_m size) (readable size)) sizes = true ->
  forall info w,
    testAllBlockSizes_loop sevenzip path dict_size word_size (Some b) sizes
      info w
    = sweep (fun size => runCMD sevenzip path dict_size word_size
                           (Some size) None)
        (take_while (fun size => negb (ends_m size) || Z.leb (number size) b)
           sizes) info w.
Proof.
  unfold readable, number, ends_m.
  induction sizes as [|size rest IH]; intros Hread info w; [reflexivity|].
  cbn [forallb] in Hread. apply andb_true_iff in Hread.
  destruct Hread as [Hsize Hrest].
  cbn [testAllBlockSizes_loop take_while].
  destruct (Py.endswith size "m"); cbn [negb orb implb] in *.
  - destruct (Py.int (Py.init size)) as [n|e]; [|discriminate].
    cbn [Py.bind Py.gt]. rewrite Z.leb_antisym.
    destruct (Z.ltb b n); cbn [negb sweep]; [reflexivity|].
    destruct (runCMD sevenzip path dict_size word_size (Some size) None w);
      cbn [Py.bind]; auto.
  - cbn [Py.bind sweep].
    destruct (runCMD sevenzip path dict_size word_size (Some size) None w);
      cbn [Py.bind]; auto.
Qed.

End PrunedSweeps.

Ltac each_number Hin :=
  simpl in Hin;
  repeat (destruct Hin as [<-|Hin]; [try lia|]); try contradiction.

Lemma dictsize_take_while_filter (b : Z) :
  In b (numbers has_m values.dictsize) ->
  64 <= b ->
  take_while (fun size => Z.leb (number size) b) values.dictsize
  = filter (fun size => Z.leb (number size) b) values.dictsize.
Proof.
  intros Hin Hb. rewrite dictsize_numbers in Hin.
  each_number Hin; vm_compute; reflexivity.
Qed.

Lemma blocksize_take_while_below (b : Z) :
  In b (numbers ends_m values.blocksize) ->
  b <= 256 ->
  take_while (fun size => negb (ends_m size) || Z.leb (number size) b)
    values.blocksize
  = ("=off" :: "=on"
     :: filter (fun size => ends_m size && Z.leb (number size) b)
          values.blocksize)%list.
Proof.
  intros Hin Hb. rewrite blocksize_numbers in Hin.
  each_number Hin; vm_compute; reflexivity.
Qed.

Lemma blocksize_take_while_512 :
  take_while (fun size => negb (ends_m size) || Z.leb (number size) 512)
    values.blocksize
  = values.blocksize.
Proof. vm_compute. reflexivity. Qed.

(** X5. When the largest directory has between 48 and 1535 MB, the
    dictionary sweep returns a table whose keys are exactly the candidates
    whose number is at most the bound, in table order: ['64k'], read as
    64, and every megabyte candidate up to the bound itself. *)
Theorem testAllDictSizes_records_up_to_bound :
  forall (sevenzip : list string -> list entry -> Z * option Z)
         (path : string) (w : world) (largest : Z),
    getLargestDirectorySize w = Ok largest ->
    48 <= largest < 1536 ->
    exists b info w',
      minimumLargestDictSize w = Ok (Some b) /\
      largest < b /\
      testAllDictSizes sevenzip path w = Ok (info, w') /\
      Py.keys info
      = filter (fun size => Z.leb (number size) b) values.dictsize /\
      In "64k" (Py.keys info) /\
      In (Py.str b ++ "m")%string (Py.keys info).
Proof.
  intros sevenzip path w largest Hlargest [Hlow Hhigh].
  pose proof (minimumLargestDictSize_find w largest Hlargest) as Hbound.
  destruct (find_some_above largest (numbers has_m values.dictsize) 1536)
    as [b Hfind]; [rewrite dictsize_numbers; simpl; tauto|lia|].
  rewrite Hfind in Hbound.
  destruct (find_first_above largest _ dictsize_numbers_ascending b Hfind)
    as (Hin & Hb & _).
  assert (H64 : 64 <= b)
    by (rewrite dictsize_numbers in Hin; each_number Hin).
  unfold testAllDictSizes. rewrite Hbound. cbn [Py.bind].
  rewrite testAllDictSizes_loop_take_while by (vm_compute; reflexivity).
  destruct (sweep_keys
              (fun size => runCMD sevenzip path (Some size) None None None)
              (fun c w0 => runCMD_total sevenzip path (Some c) None None
                             None w0)
              (take_while (fun size => Z.leb (number size) b)
                 values.dictsize) [] w
              (NoDup_take_while _ _ NoDup_dictsize))
    as (info & w' & Hsweep & Hkeys & _).
  cbn [Py.keys map app] in Hkeys.
  rewrite (dictsize_take_while_filter b Hin H64) in Hkeys.
  exists b, info, w'. split; [reflexivity|]. split; [exact Hb|].
  split; [exact Hsweep|]. split; [exact Hkeys|].
  rewrite Hkeys. split.
  - apply filter_In. split; [simpl; tauto|].
    change (number "64k") with 64. now apply Z.leb_le.
  - clear -Hin H64. rewrite dictsize_numbers in Hin.
    each_number Hin; vm_compute; tauto.
Qed.

Lemma testAllDictSizes_records_up_to_bound_witness :
  getLargestDirectorySize world_500MB = Ok 500 /\
  48 <= 500 < 1536 /\
  exists b info w',
    minimumLargestDictSize world_500MB = Ok (Some b) /\
    500 < b /\
    testAllDictSizes sevenzip_1000 "7z" world_500MB = Ok (info, w') /\
    Py.keys info
    = filter (fun size => Z.leb (number size) b) values.dictsize /\
    In "64k" (Py.keys info) /\
    In (Py.str b ++ "m")%string (Py.keys info).
Proof.
  split; [reflexivity|]. split; [lia|].
  apply (testAllDictSizes_records_up_to_bound sevenzip_1000 "7z"
           world_500MB 500); [reflexivity|lia].
Defined.

(** X6. When the largest directory has less than 512 MB, the block sweep
    returns a table that starts with the two modes ['=off'] and ['=on']
    and goes on with the megabyte candidates up to the bound.  Below
    256 MB it ends there: the loop breaks at the next megabyte candidate
    and no gigabyte candidate is tried.  From 256 MB on the bound is 512,
    no megabyte candidate exceeds it, and all 22 candidates are tried. *)
Theorem testAllBlockSizes_records_up_to_bound :
  forall (sevenzip : list string -> list entry -> Z * option Z)
         (path : string) (dict_size : option string) (word_size : option Z)
         (w : world) (largest : Z),
    getLargestDirectorySize w = Ok largest ->
    largest < 512 ->
    exists b info w',
      minimumLargestBlockSize w = Ok (Some b) /\
      largest < b /\
      testAllBlockSizes sevenzip path dict_size word_size w
      = Ok (info, w') /\
      (largest < 256 ->
       Py.keys info
       = ("=off" :: "=on"
          :: filter (fun size => ends_m size && Z.leb (number size) b)
               values.blocksize)%list) /\
      (256 <= largest -> Py.keys info = values.blocksize).
Proof.
  intros sevenzip path dict_size word_size w largest Hlargest Hsmall.
  destruct (minimumLargestBlockSize_find w largest Hlargest Hsmall)
    as (Hbound & b & Hfind).
  rewrite Hfind in Hbound.
  destruct (find_first_above largest _ blocksize_numbers_ascending b Hfind)
    as (Hin & Hb & Hleast).
  unfold testAllBlockSizes. rewrite Hbound. cbn [Py.bind].
  rewrite testAllBlockSizes_loop_take_while by (vm_compute; reflexivity).
  destruct (sweep_keys
              (fun size => runCMD sevenzip path dict_size word_size
                             (Some size) None)
              (fun c w0 => runCMD_total sevenzip path dict_size word_size
                             (Some c) None w0)
              (take_while
                 (fun size => negb (ends_m size) || Z.leb (number size) b)
                 values.blocksize) [] w
              (NoDup_take_while _ _ NoDup_blocksize))
    as (info & w' & Hsweep & Hkeys & _).
  cbn [Py.keys map app] in Hkeys.
  exists b, info, w'. split; [reflexivity|]. split; [exact Hb|].
  split; [exact Hsweep|]. split.
  - intros H256. rewrite Hkeys. apply blocksize_take_while_below;
      [exact Hin|].
    apply Hleast; [|exact H256]. rewrite blocksize_numbers. simpl. tauto.
  - intros H256. rewrite Hkeys.
    assert (b = 512) as ->
      by (rewrite blocksize_numbers in Hin; each_number Hin).
    apply blocksize_take_while_512.
Qed.

Lemma testAllBlockSizes_records_up_to_bound_witness :
  getLargestDirectorySize world_10MB = Ok 10 /\
  10 < 512 /\
  exists b info w',
    minimumLargestBlockSize world_10MB = Ok (Some b) /\
    10 < b /\
    testAllBlockSizes sevenzip_1000 "7z" (Some "4m") (Some 32) world_10MB
    = Ok (info, w') /\
    (10 < 256 ->
     Py.keys info
     = ("=off" :: "=on"
        :: filter (fun size => ends_m size && Z.leb (number size) b)
             values.blocksize)%list) /\
    (256 <= 10 -> Py.keys info = values.blocksize).
Proof.
  split; [reflexivity|]. split; [lia|].
  apply (testAllBlockSizes_records_up_to_bound sevenzip_1000 "7z"
           (Some "4m") (Some 32) world_10MB 10); [reflexivity|lia].
Defined.

(** X7. From 512 MB on the block sweep has no bound to compare with, also
    between 512 and 1023 MB where the bound function does compare: the
    bound is [None] and the sweep raises a TypeError without returning a
    table. *)
Theorem testAllBlockSizes_from_512MB_TypeError :
  forall (sevenzip : list string -> list entry -> Z * option Z)
         (path : string) (dict_size : option string) (word_size : option Z)
         (w : world) (largest : Z),
    getLargestDirectorySize w = Ok largest ->
    512 <= largest ->
    minimumLargestBlockSize w = Ok None /\
    testAllBlockSizes sevenzip path dict_size word_size w = Raise TypeError.
Proof.
  intros sevenzip path dict_size word_size w largest Hlargest Hlarge.
  pose proof (minimumLargestBlockSize_None w largest Hlargest Hlarge)
    as Hbound.
  split; [exact Hbound|].
  unfold testAllBlockSizes. rewrite Hbound. cbn [Py.bind].
  apply testAllBlockSizes_loop_None.
Qed.

Lemma testAllBlockSizes_from_512MB_TypeError_witness :
  getLargestDirectorySize
    (mkWorld [Dir "A" 600; Dir "B" 5] (Some 4) []) = Ok 600 /\
  512 <= 600 /\
  (minimumLargestBlockSize (mkWorld [Dir "A" 600; Dir "B" 5] (Some 4) [])
   = Ok None /\
   testAllBlockSizes sevenzip_1000 "7z" (Some "4m") (Some 32)
     (mkWorld [Dir "A" 600; Dir "B" 5] (Some 4) []) = Raise TypeError).
Proof.
  split; [reflexivity|]. split; [lia|].
  apply (testAllBlockSizes_from_512MB_TypeError sevenzip_1000 "7z"
           (Some "4m") (Some 32)
           (mkWorld [Dir "A" 600; Dir "B" 5] (Some 4) []) 600);
    [reflexivity|lia].
Defined.

(* ================================================================== *)
(** ** The exhaustive sweeps *)
(* ================================================================== *)

Lemma getTotalSizeOfArchives_cwd (w w' : world) :
  cwd w = cwd w' -> getTotalSizeOfArchives w = getTotalSizeOfArchives w'.
Proof. intros Hcwd. unfold getTotalSizeOfArchives. now rewrite Hcwd. Qed.

Lemma directories_cwd (w w' : world) :
  cwd w = cwd w' -> directories w = directories w'.
Proof. intros Hcwd. unfold directories. now rewrite Hcwd. Qed.

Section Measures.
Variable sevenzip : list string -> list entry -> Z * option Z.
Variable path : string.

(** What a run leaves in the working directory depends on the working
    directory it starts from, not on the log. *)
Lemma runCMD_loop_cwd (dirs cmd : list string) :
  forall w w',
    cwd w = cwd w' ->
    cwd (snd (runCMD_loop sevenzip dirs cmd w))
    = cwd (snd (runCMD_loop sevenzip dirs cmd w')).
Proof.
  revert cmd. induction dirs as [|d dirs IH]; intros cmd w w' Hcwd;
    cbn [runCMD_loop]; [exact Hcwd|].
  apply IH. unfold subprocess_run. rewrite Hcwd.
  now destruct (sevenzip _ (cwd w')) as [rc [size|]].
Qed.

Lemma runCMD_measure
  (dict_size : option string) (word_size : option Z)
  (block_size : option string) (threads : option Z) (w w1 : world) :
  runCMD sevenzip path dict_size word_size block_size threads w = Ok w1 ->
  getTotalSizeOfArchives w1
  = measure sevenzip path dict_size word_size block_size threads (cwd w).
Proof.
  unfold measure, runCMD, runCMD_cmd.
  destruct (runCMD_flags path dict_size word_size block_size threads)
    as [cmd|e]; [|discriminate].
  cbn [Py.bind].
  rewrite (directories_cwd (mkWorld (cwd w) None []) w) by reflexivity.
  pose proof (runCMD_loop_cwd (directories w) cmd w
                (mkWorld (cwd w) None []) eq_refl) as Hcwd.
  destruct (runCMD_loop sevenzip (directories w) cmd w) as [c w'].
  destruct (runCMD_loop sevenzip (directories w) cmd _) as [c0 w0].
  intros [= <-]. now apply getTotalSizeOfArchives_cwd.
Qed.

Lemma runCMD_calls
  (dict_size : option string) (word_size : option Z)
  (block_size : option string) (threads : option Z) (w w1 : world) :
  path <> "--" ->
  runCMD sevenzip path dict_size word_size block_size threads w = Ok w1 ->
  map fst (calls w1)
  = (map fst (calls w)
     ++ map (command path dict_size word_size block_size threads)
         (directories w))%list.
Proof.
  intros Hpath. unfold runCMD, runCMD_cmd.
  rewrite runCMD_flags_shape by exact Hpath. cbn [Py.bind].
  match goal with
  | |- context [runCMD_loop sevenzip ?dirs ?cmd w] =>
      destruct (runCMD_loop_commands sevenzip dirs cmd w) as [_ Hcalls];
      destruct (runCMD_loop sevenzip dirs cmd w) as [c w']
  end.
  intros [= <-]. cbn [snd] in Hcalls. rewrite Hcalls. f_equal.
  apply map_ext. intros d. unfold command. cbn [app].
  now rewrite <- app_assoc.
Qed.

End Measures.

Section SweepTables.
Context {K : Type} `{Key K}.
Variable run : K -> world -> result world.
Variable fs : list entry.
Variable m : K -> Z.
Variable cmds : K -> list (list string).
Hypothesis run_from_fs :
  forall c w0,
    cwd w0 = fs ->
    exists w1,
      run c w0 = Ok w1 /\
      getTotalSizeOfArchives w1 = m c /\
      cwd (removeArchives w1) = fs /\
      cpu_count w1 = cpu_count w0 /\
      map fst (calls w1) = (map fst (calls w0) ++ cmds c)%list.

(** A sweep whose every run starts from the same working directory
    records, for each candidate, the size that candidate alone produces,
    and runs the candidates' commands one candidate after the other. *)
Lemma sweep_table (candidates : list K) :
  forall (info : dict K) (w : world),
    cwd w = fs ->
    NoDup (Py.keys info ++ candidates) ->
    exists w',
      sweep run candidates info w
      = Ok ((info ++ map (fun c => (c, m c)) candidates)%list, w') /\
      cwd w' = fs /\
      cpu_count w' = cpu_count w /\
      map fst (calls w')
      = (map fst (calls w) ++ flat_map cmds candidates)%list.
Proof.
  induction candidates as [|c rest IH]; intros info w Hcwd Hnd.
  - exists w. cbn [sweep map flat_map]. now rewrite !app_nil_r.
  - destruct (run_from_fs c w Hcwd)
      as (w1 & Hrun & Hm & Hfs & Hcpu1 & Hcalls).
    assert (Hfresh : ~ In c (Py.keys info)).
    { intros Hin. apply NoDup_remove_2 in Hnd. apply Hnd.
      apply in_or_app. now left. }
    destruct (IH (Py.set c (getTotalSizeOfArchives w1) info)
                (removeArchives w1) Hfs)
      as (w' & Hsweep & Hcwd' & Hcpu & Hcalls').
    + rewrite keys_set_fresh by exact Hfresh.
      rewrite <- app_assoc. exact Hnd.
    + exists w'. cbn [sweep]. rewrite Hrun. cbn [Py.bind].
      rewrite Hsweep, set_fresh, Hm by exact Hfresh.
      split; [now rewrite <- app_assoc|].
      split; [exact Hcwd'|].
      split; [rewrite Hcpu|rewrite Hcalls'].
      * unfold removeArchives, with_cwd. cbn [cpu_count]. exact Hcpu1.
      * cbn [flat_map]. unfold removeArchives, with_cwd. cbn [calls].
        rewrite Hcalls. now rewrite <- app_assoc.
Qed.

End SweepTables.

Section CleanRuns.
Variable sevenzip : list string -> list entry -> Z * option Z.
Variable path : string.
Hypothesis path_not_dashes : path <> "--".

(** A run that starts from a working directory without archives, followed
    by the removal of the archives, is back to that directory. *)
Lemma runCMD_from_clean
  (dict_size : option string) (word_size : option Z)
  (block_size : option string) (threads : option Z) (w w0 : world) :
  archives w = [] ->
  cwd w0 = cwd w ->
  exists w1,
    runCMD sevenzip path dict_size word_size block_size threads w0 = Ok w1 /\
    getTotalSizeOfArchives w1
    = measure sevenzip path dict_size word_size block_size threads (cwd w) /\
    cwd (removeArchives w1) = cwd w /\
    cpu_count w1 = cpu_count w0 /\
    map fst (calls w1)
    = (map fst (calls w0)
       ++ map (command path dict_size word_size block_size threads)
           (directories w))%list.
Proof.
  intros Hclean Hcwd.
  destruct (runCMD_total sevenzip path dict_size word_size block_size
              threads w0) as [w1 Hrun].
  exists w1. split; [exact Hrun|].
  split; [rewrite <- Hcwd;
          exact (runCMD_measure sevenzip path _ _ _ _ w0 w1 Hrun)|].
  split.
  - rewrite (runCMD_others sevenzip path _ _ _ _ w0 w1 path_not_dashes Hrun).
    unfold removeArchives, with_cwd. cbn [cwd]. rewrite Hcwd.
    change (cwd (removeArchives w) = cwd w).
    now rewrite removeArchives_clean.
  - split; [now destruct (runCMD_keeps sevenzip path _ _ _ _ w0 w1 Hrun)
              as (_ & _ & ?)|].
    rewrite (directories_cwd w w0) by (now symmetry).
    exact (runCMD_calls sevenzip path _ _ _ _ w0 w1 path_not_dashes Hrun).
Qed.

End CleanRuns.





(** C6. On a machine with [n] logical cores, [n] at least 1, the thread
    sweep tests the thread counts [n], [n - 1], ..., 1 in that order: the
    table it returns has these counts as keys, in that order, each with
    the total size of the [.7z] files found after a compression run with
    that count; so when every count gave the same total size
    [smallestSize] selects the largest count tested, the number of cores.
    Started without archives (as in [main], which removes them first),
    the size recorded for a count is the one its own run produces from the
    working directory as it was at the start, and the commands run are,
    for [n] down to 1, the command with [-mmt<count>] for each directory
    of the listing. *)
Theorem testNThreads_tie_selects_cpu_count :
  forall (sevenzip : list string -> list entry -> Z * option Z)
         (path : string) (dict_size : option string) (word_size : option Z)
         (block_size : option string) (w : world) (n : Z),
    cpu_count w = Some n ->
    1 <= n ->
    exists info w',
      testNThreads sevenzip path dict_size word_size block_size w
      = Ok (info, w') /\
      Py.keys info = countdown n /\
      (forall i, In i (Py.keys info) <-> 1 <= i <= n) /\
      (forall i v,
          In (i, v) info ->
          exists w0 w1,
            runCMD sevenzip path dict_size word_size block_size (Some i) w0
            = Ok w1 /\
            v = total_7z (cwd w1)) /\
      (forall s, (forall k v, In (k, v) info -> v = s) ->
                 smallestSize info = Ok (n, s)) /\
      (path <> "--" ->
       archives w = [] ->
       info = map (fun i =>
                     (i, measure sevenzip path dict_size word_size
                           block_size (Some i) (cwd w))) (countdown n) /\
       map fst (calls w')
       = (map fst (calls w)
          ++ flat_map (fun i =>
                         map (expected_command path dict_size word_size
                                block_size (Some i)) (directories w))
              (countdown n))%list).
Proof.
  intros sevenzip path dict_size word_size block_size w n Hcpu Hn.
  unfold testNThreads. rewrite Hcpu, reversed_range_countdown.
  rewrite testNThreads_loop_sweep.
  pose proof (fun c w0 => runCMD_total sevenzip path dict_size word_size
                            block_size (Some c) w0) as Htotal.
  destruct (sweep_keys _ Htotal (countdown n) [] w (countdown_NoDup n))
    as (info & w' & Hsweep & Hkeys & _).
  simpl in Hkeys.
  exists info, w'. split; [exact Hsweep|]. split; [exact Hkeys|].
  split; [intros i; rewrite Hkeys; apply countdown_In|].
  split; [|split].
  - intros i v Hin.
    destruct (sweep_records _ _ _ _ _ _ Hsweep i v Hin)
      as [[]|(_ & Hrun)].
    exact Hrun.
  - intros s Htie.
    destruct (countdown_head n Hn) as [rest Hhead].
    assert (Hget : forall x, In x (Py.keys info) -> Py.get info x = Some s).
    { intros x Hx. unfold Py.keys in Hx. apply in_map_iff in Hx.
      destruct Hx as ([k v] & <- & Hin). rewrite (Htie k v Hin) in Hin.
      apply get_In; [|exact Hin]. rewrite Hkeys. apply countdown_NoDup. }
    unfold smallestSize. rewrite Hkeys, Hhead in *. cbn [Py.min_key].
    rewrite (min_loop_tie (Py.get info) s rest n).
    + cbn [Py.bind]. unfold Py.getitem_dict.
      now rewrite (Hget n (or_introl eq_refl)).
    + apply Hget. now left.
    + intros x Hx. apply Hget. now right.
  - intros Hpath Hclean.
    destruct (sweep_table
                (fun i => runCMD sevenzip path dict_size word_size
                            block_size (Some i))
                (cwd w)
                (fun i => measure sevenzip path dict_size word_size
                            block_size (Some i) (cwd w))
                (fun i => map (command path dict_size word_size block_size
                                 (Some i)) (directories w))
                (fun c w0 Hcwd =>
                   runCMD_from_clean sevenzip path Hpath dict_size word_size
                     block_size (Some c) w w0 Hclean Hcwd)
                (countdown n) [] w eq_refl (countdown_NoDup n))
      as (w'' & Hsweep' & _ & _ & Hcalls).
    pose proof (eq_trans (eq_sym Hsweep) Hsweep') as Hsame.
    injection Hsame as Hinfo Hw'. subst w''.
    split; [exact Hinfo|]. rewrite Hcalls. f_equal.
    apply flat_map_ext. intros i. apply map_ext. intros directory.
    apply command_expected.
Qed.

Lemma testNThreads_tie_selects_cpu_count_witness :
  cpu_count world_10MB = Some 4 /\
  1 <= 4 /\
  exists info w',
    testNThreads sevenzip_1000 "/usr/bin/7z" (Some "4m") (Some 32)
      (Some "64m") world_10MB = Ok (info, w') /\
    info = [(4, 2000); (3, 2000); (2, 2000); (1, 2000)] /\
    smallestSize info = Ok (4, 2000) /\
    map fst (calls w')
    = [["/usr/bin/7z"; "a"; "-mx9"; "-md4m"; "-mfb32"; "-ms64m"; "-mmt4";
        "--"; "A.7z"; "A"];
       ["/usr/bin/7z"; "a"; "-mx9"; "-md4m"; "-mfb32"; "-ms64m"; "-mmt4";
        "--"; "B.7z"; "B"];
       ["/usr/bin/7z"; "a"; "-mx9"; "-md4m"; "-mfb32"; "-ms64m"; "-mmt3";
        "--"; "A.7z"; "A"];
       ["/usr/bin/7z"; "a"; "-mx9"; "-md4m"; "-mfb32"; "-ms64m"; "-mmt3";
        "--"; "B.7z"; "B"];
       ["/usr/bin/7z"; "a"; "-mx9"; "-md4m"; "-mfb32"; "-ms64m"; "-mmt2";
        "--"; "A.7z"; "A"];
       ["/usr/bin/7z"; "a"; "-mx9"; "-md4m"; "-mfb32"; "-ms64m"; "-mmt2";
        "--"; "B.7z"; "B"];
       ["/usr/bin/7z"; "a"; "-mx9"; "-md4m"; "-mfb32"; "-ms64m"; "-mmt1";
        "--"; "A.7z"; "A"];
       ["/usr/bin/7z"; "a"; "-mx9"; "-md4m"; "-mfb32"; "-ms64m"; "-mmt1";
        "--"; "B.7z"; "B"]].
Proof.
  split; [reflexivity|]. split; [lia|].
  destruct (testNThreads_tie_selects_cpu_count sevenzip_1000 "/usr/bin/7z"
              (Some "4m") (Some 32) (Some "64m") world_10MB 4 eq_refl
              ltac:(lia))
    as (info & w' & Hrun & _ & _ & _ & Htie & Htable).
  destruct (Htable ltac:(discriminate) eq_refl) as [Hinfo Hcalls].
  exists info, w'. split; [exact Hrun|]. split; [exact Hinfo|].
  split; [|exact Hcalls].
  apply Htie. intros k v Hin. rewrite Hinfo in Hin.
  vm_compute in Hin.
  destruct Hin as [Hin|[Hin|[Hin|[Hin|[]]]]]; now inversion Hin.
Defined.

(* ================================================================== *)
(** ** The whole search *)
(* ================================================================== *)

(** On a non-empty table [smallestSize] returns one of the items. *)
Lemma smallestSize_in {K : Type} `{Key K} (data : dict K) :
  NoDup (Py.keys data) ->
  data <> [] ->
  exists k v, smallestSize data = Ok (k, v) /\ In k (Py.keys data).
Proof.
  intros Hnd Hne. destruct data as [|[k0 v0] rest]; [congruence|].
  destruct (min_loop_first (Py.get ((k0, v0) :: rest)) (Py.keys rest)
              [] [] k0 v0) as (k & v & l1 & l2 & Hk & Hv & Hsplit & _).
  - simpl. now rewrite key_eqb_refl.
  - intros x [].
  - intros x [].
  - intros x Hx. unfold Py.keys in Hx. apply in_map_iff in Hx.
    destruct Hx as ([k' v'] & <- & Hin). exists v'.
    apply get_In; [exact Hnd|now right].
  - exists k, v. split.
    + unfold smallestSize.
      change (Py.min_key (Py.keys ((k0, v0) :: rest))
                (Py.get ((k0, v0) :: rest)))
        with (Py.min_loop (Py.get ((k0, v0) :: rest)) k0 (Py.keys rest)).
      rewrite Hk. unfold Py.bind, Py.getitem_dict. now rewrite Hv.
    + change (Py.keys ((k0, v0) :: rest)) with (k0 :: Py.keys rest).
      cbn [app] in Hsplit. rewrite Hsplit. apply in_or_app. right. now left.
Qed.

Lemma keys_nil {K : Type} (data : dict K) : Py.keys data = [] -> data = [].
Proof. now destruct data. Qed.

Lemma take_while_incl {A : Type} (p : A -> bool) (l : list A) :
  incl (take_while p l) l.
Proof.
  induction l as [|a l IH]; cbn [take_while]; [easy|].
  destruct (p a); [|easy].
  intros x [<-|Hx]; [now left|right; auto].
Qed.

Lemma removeArchives_getLargestDirectorySize (w : world) :
  getLargestDirectorySize (removeArchives w) = getLargestDirectorySize w.
Proof. apply getLargestDirectorySize_du_sm, removeArchives_du_sm. Qed.

Section Stages.
Variable sevenzip : list string -> list entry -> Z * option Z.
Variable path : string.

(** The dictionary stage between 48 and 1535 MB: a non-empty table of
    dictionary candidates. *)
Lemma testAllDictSizes_runs (w : world) (largest : Z) :
  getLargestDirectorySize w = Ok largest ->
  48 <= largest < 1536 ->
  exists info w',
    testAllDictSizes sevenzip path w = Ok (info, w') /\
    info <> [] /\ NoDup (Py.keys info) /\
    incl (Py.keys info) values.dictsize.
Proof.
  intros Hlargest [Hlow Hhigh].
  pose proof (minimumLargestDictSize_find w largest Hlargest) as Hbound.
  destruct (find_some_above largest (numbers has_m values.dictsize) 1536)
    as [b Hfind]; [rewrite dictsize_numbers; simpl; tauto|lia|].
  rewrite Hfind in Hbound.
  destruct (find_first_above largest _ dictsize_numbers_ascending b Hfind)
    as (Hin & Hb & _).
  unfold testAllDictSizes. rewrite Hbound. cbn [Py.bind].
  rewrite testAllDictSizes_loop_take_while by (vm_compute; reflexivity).
  pose proof (NoDup_take_while (fun size => Z.leb (number size) b) _
                NoDup_dictsize) as Hnd.
  destruct (sweep_keys
              (fun size => runCMD sevenzip path (Some size) None None None)
              (fun c w0 => runCMD_total sevenzip path (Some c) None None
                             None w0) _ [] w Hnd)
    as (info & w' & Hsweep & Hkeys & _).
  cbn [Py.keys map app] in Hkeys.
  exists info, w'. split; [exact Hsweep|].
  split; [|split].
  - intros ->. revert Hkeys. unfold values.dictsize. cbn [take_while].
    change (number "64k") with 64.
    destruct (Z.leb_spec 64 b) as [_|Hlt]; [discriminate|].
    rewrite dictsize_numbers in Hin. each_number Hin.
  - now rewrite Hkeys.
  - rewrite Hkeys. apply take_while_incl.
Qed.

(** The block stage below 512 MB: a non-empty table of block
    candidates. *)
Lemma testAllBlockSizes_runs
  (dict_size : option string) (word_size : option Z)
  (w : world) (largest : Z) :
  getLargestDirectorySize w = Ok largest ->
  largest < 512 ->
  exists info w',
    testAllBlockSizes sevenzip path dict_size word_size w = Ok (info, w') /\
    info <> [] /\ NoDup (Py.keys info) /\
    incl (Py.keys info) values.blocksize.
Proof.
  intros Hlargest Hsmall.
  destruct (minimumLargestBlockSize_find w largest Hlargest Hsmall)
    as (Hbound & b & Hfind).
  rewrite Hfind in Hbound.
  unfold testAllBlockSizes. rewrite Hbound. cbn [Py.bind].
  rewrite testAllBlockSizes_loop_take_while by (vm_compute; reflexivity).
  pose proof (NoDup_take_while
                (fun size => negb (ends_m size) || Z.leb (number size) b) _
                NoDup_blocksize) as Hnd.
  destruct (sweep_keys
              (fun size => runCMD sevenzip path dict_size word_size
                             (Some size) None)
              (fun c w0 => runCMD_total sevenzip path dict_size word_size
                             (Some c) None w0) _ [] w Hnd)
    as (info & w' & Hsweep & Hkeys & _).
  cbn [Py.keys map app] in Hkeys.
  exists info, w'. split; [exact Hsweep|].
  split; [|split].
  - intros ->. revert Hkeys. unfold values.blocksize. cbn [take_while].
    change (ends_m "=off") with false. discriminate.
  - now rewrite Hkeys.
  - rewrite Hkeys. apply take_while_incl.
Qed.

(** The word stage: always the full table. *)
Lemma testAllWordSizes_runs (dict_size : option string) (w : world) :
  exists info w',
    testAllWordSizes sevenzip path dict_size w = Ok (info, w') /\
    Py.keys info = values.wordsize.
Proof.
  unfold testAllWordSizes. rewrite testAllWordSizes_loop_sweep.
  destruct (sweep_keys _
              (fun c w0 => runCMD_total sevenzip path dict_size (Some c)
                             None None w0)
              values.wordsize [] w NoDup_wordsize)
    as (info & w' & Hsweep & Hkeys & _).
  eauto.
Qed.

(** The thread stage: the counts from the number of cores down to 1. *)
Lemma testNThreads_runs
  (dict_size : option string) (word_size : option Z)
  (block_size : option string) (w : world) (n : Z) :
  cpu_count w = Some n ->
  exists info w',
    testNThreads sevenzip path dict_size word_size block_size w
    = Ok (info, w') /\
    Py.keys info = countdown n.
Proof.
  intros Hcpu. unfold testNThreads.
  rewrite Hcpu, reversed_range_countdown, testNThreads_loop_sweep.
  destruct (sweep_keys _
              (fun c w0 => runCMD_total sevenzip path dict_size word_size
                             block_size (Some c) w0)
              (countdown n) [] w (countdown_NoDup n))
    as (info & w' & Hsweep & Hkeys & _).
  eauto.
Qed.

End Stages.

Section Search.
Variable sevenzip : list string -> list entry -> Z * option Z.
Variable path : string.
Hypothesis path_not_dashes : path <> "--".

Lemma testAllDictSizes_clean (w : world) (info : dict string) (w' : world) :
  archives w = [] ->
  testAllDictSizes sevenzip path w = Ok (info, w') -> archives w' = [].
Proof.
  intros Hw. unfold testAllDictSizes.
  destruct (minimumLargestDictSize w) as [bound|e]; [|discriminate].
  cbn [Py.bind]. now apply testAllDictSizes_loop_clean.
Qed.

Lemma testAllWordSizes_clean
  (dict_size : option string) (w : world) (info : dict Z) (w' : world) :
  archives w = [] ->
  testAllWordSizes sevenzip path dict_size w = Ok (info, w') ->
  archives w' = [].
Proof. intros Hw. now apply testAllWordSizes_loop_clean. Qed.

Lemma testAllBlockSizes_clean
  (dict_size : option string) (word_size : option Z)
  (w : world) (info : dict string) (w' : world) :
  archives w = [] ->
  testAllBlockSizes sevenzip path dict_size word_size w = Ok (info, w') ->
  archives w' = [].
Proof.
  intros Hw. unfold testAllBlockSizes.
  destruct (minimumLargestBlockSize w) as [bound|e]; [|discriminate].
  cbn [Py.bind]. now apply testAllBlockSizes_loop_clean.
Qed.

Lemma testNThreads_clean
  (dict_size : option string) (word_size : option Z)
  (block_size : option string) (w : world) (info : dict Z) (w' : world) :
  archives w = [] ->
  testNThreads sevenzip path dict_size word_size block_size w
  = Ok (info, w') ->
  archives w' = [].
Proof.
  intros Hw. unfold testNThreads.
  destruct (cpu_count w) as [n|]; [|discriminate].
  now apply testNThreads_loop_clean.
Qed.

(** The first two stages of [main] when the largest directory has between
    48 and 1535 MB: a dictionary size and a word size are chosen from
    their tables, and the third stage starts from the directory without
    its archives. *)
Lemma main_first_stages (w : world) (largest : Z) :
  getLargestDirectorySize w = Ok largest ->
  48 <= largest < 1536 ->
  exists d wd w2,
    In d values.dictsize /\ In wd values.wordsize /\
    archives w2 = [] /\ base w2 = base w /\
    main sevenzip path w
    = (' (t, w3) <- testAllBlockSizes sevenzip path (Some d) (Some wd) w2 ;;
       block_best <- smallestSize t ;;
       ' (t, w4) <- testNThreads sevenzip path (Some d) (Some wd)
                      (Some (fst block_best)) w3 ;;
       thread_best <- smallestSize t ;;
       runCMD sevenzip path (Some d) (Some wd) (Some (fst block_best))
         (Some (fst thread_best)) w4).
Proof.
  intros Hlargest Hrange.
  rewrite <- removeArchives_getLargestDirectorySize in Hlargest.
  destruct (testAllDictSizes_runs sevenzip path _ largest Hlargest Hrange)
    as (t1 & w1 & Hdict & Hne1 & Hnd1 & Hincl1).
  destruct (smallestSize_in t1 Hnd1 Hne1) as (d & vd & Hbest1 & Hd).
  destruct (testAllWordSizes_runs sevenzip path (Some d) w1)
    as (t2 & w2 & Hword & Hkeys2).
  destruct (smallestSize_in t2) as (wd & vwd & Hbest2 & Hwd).
  { rewrite Hkeys2. apply NoDup_wordsize. }
  { intros ->. discriminate. }
  exists d, wd, w2.
  split; [now apply Hincl1|]. split; [now rewrite <- Hkeys2|].
  pose proof (testAllDictSizes_clean _ _ _ (removeArchives_archives w) Hdict)
    as Hclean1.
  split; [exact (testAllWordSizes_clean _ _ _ _ Hclean1 Hword)|].
  split.
  - rewrite (testAllWordSizes_base sevenzip path path_not_dashes _ _ _ _ Hword).
    rewrite (testAllDictSizes_base sevenzip path path_not_dashes _ _ _ Hdict).
    apply base_removeArchives.
  - unfold main. rewrite Hdict. cbn [Py.bind]. rewrite Hbest1.
    cbn [Py.bind fst]. rewrite Hword. cbn [Py.bind]. rewrite Hbest2.
    reflexivity.
Qed.

End Search.

(** X10. When the largest directory has between 48 and 511 MB and the
    machine reports at least one core, [main] completes: it ends with one
    compression run, started from the working directory without its
    archives, whose four values come from the tables (a dictionary size,
    a word size, a block size and a thread count between 1 and the number
    of cores), and the entries that are not archives are what they were
    before. *)
Theorem main_completes :
  forall (sevenzip : list string -> list entry -> Z * option Z)
         (path : string) (w : world) (largest n : Z),
    path <> "--" ->
    getLargestDirectorySize w = Ok largest ->
    48 <= largest < 512 ->
    cpu_count w = Some n ->
    1 <= n ->
    exists d wd b t w5 w',
      In d values.dictsize /\ In wd values.wordsize /\
      In b values.blocksize /\ 1 <= t <= n /\
      cwd w5 = cwd (removeArchives w) /\
      runCMD sevenzip path (Some d) (Some wd) (Some b) (Some t) w5 = Ok w' /\
      main sevenzip path w = Ok w' /\
      cwd (removeArchives w') = cwd (removeArchives w).
Proof.
  intros sevenzip path w largest n Hpath Hlargest [Hlow Hhigh] Hcpu Hn.
  destruct (main_first_stages sevenzip path Hpath w largest Hlargest)
    as (d & wd & w2 & Hd & Hwd & Hclean2 & Hbase2 & Hmain); [lia|].
  rewrite (base_getLargestDirectorySize _ _ (eq_sym Hbase2)) in Hlargest.
  destruct (testAllBlockSizes_runs sevenzip path (Some d) (Some wd) w2
              largest Hlargest Hhigh)
    as (t3 & w3 & Hblock & Hne3 & Hnd3 & Hincl3).
  destruct (smallestSize_in t3 Hnd3 Hne3) as (b & vb & Hbest3 & Hb).
  pose proof (testAllBlockSizes_base sevenzip path Hpath _ _ _ _ _ Hblock)
    as Hbase3.
  pose proof (testAllBlockSizes_clean sevenzip path _ _ _ _ _ Hclean2 Hblock)
    as Hclean3.
  assert (Hcpu3 : cpu_count w3 = Some n).
  { rewrite (base_cpu_count _ _ Hbase3), (base_cpu_count _ _ Hbase2).
    exact Hcpu. }
  destruct (testNThreads_runs sevenzip path (Some d) (Some wd) (Some b) w3 n
              Hcpu3) as (t4 & w4 & Hthreads & Hkeys4).
  destruct (smallestSize_in t4) as (t & vt & Hbest4 & Ht).
  { rewrite Hkeys4. apply countdown_NoDup. }
  { intros ->. destruct (countdown_head n Hn) as [rest Hhead].
    rewrite Hhead in Hkeys4. discriminate. }
  pose proof (testNThreads_base sevenzip path Hpath _ _ _ _ _ _ Hthreads)
    as Hbase4.
  pose proof (testNThreads_clean sevenzip path _ _ _ _ _ _ Hclean3 Hthreads)
    as Hclean4.
  destruct (runCMD_total sevenzip path (Some d) (Some wd) (Some b) (Some t)
              w4) as [w' Hrun].
  assert (Hbase : base w4 = base w)
    by (now rewrite Hbase4, Hbase3, Hbase2).
  exists d, wd, b, t, w4, w'.
  split; [exact Hd|]. split; [exact Hwd|]. split; [now apply Hincl3|].
  split; [apply countdown_In; now rewrite <- Hkeys4|].
  split.
  - rewrite <- (removeArchives_clean w4 Hclean4).
    exact (f_equal fst Hbase).
  - split; [exact Hrun|]. split.
    + rewrite Hmain, Hblock. cbn [Py.bind]. rewrite Hbest3.
      cbn [Py.bind fst]. rewrite Hthreads. cbn [Py.bind]. rewrite Hbest4.
      cbn [Py.bind fst]. exact Hrun.
    + rewrite (runCMD_others sevenzip path _ _ _ _ w4 w' Hpath Hrun).
      exact (f_equal fst Hbase).
Qed.

Lemma main_completes_witness :
  "7z" <> "--" /\
  getLargestDirectorySize (mkWorld [Dir "A" 50; Dir "B" 5] (Some 2) [])
  = Ok 50 /\
  48 <= 50 < 512 /\
  cpu_count (mkWorld [Dir "A" 50; Dir "B" 5] (Some 2) []) = Some 2 /\
  1 <= 2 /\
  exists d wd b t w5 w',
    In d values.dictsize /\ In wd values.wordsize /\
    In b values.blocksize /\ 1 <= t <= 2 /\
    cwd w5 = cwd (removeArchives
                    (mkWorld [Dir "A" 50; Dir "B" 5] (Some 2) [])) /\
    runCMD sevenzip_1000 "7z" (Some d) (Some wd) (Some b) (Some t) w5
    = Ok w' /\
    main sevenzip_1000 "7z" (mkWorld [Dir "A" 50; Dir "B" 5] (Some 2) [])
    = Ok w' /\
    cwd (removeArchives w')
    = cwd (removeArchives (mkWorld [Dir "A" 50; Dir "B" 5] (Some 2) [])).
Proof.
  split; [discriminate|]. split; [reflexivity|]. split; [lia|].
  split; [reflexivity|]. split; [lia|].
  apply (main_completes sevenzip_1000 "7z"
           (mkWorld [Dir "A" 50; Dir "B" 5] (Some 2) []) 50 2);
    [discriminate|reflexivity|lia|reflexivity|lia].
Defined.

Lemma testAllBlockSizes_no_bound
  (sevenzip : list string -> list entry -> Z * option Z) (path : string)
  (dict_size : option string) (word_size : option Z)
  (w : world) (largest : Z) :
  getLargestDirectorySize w = Ok largest ->
  512 <= largest ->
  testAllBlockSizes sevenzip path dict_size word_size w = Raise TypeError.
Proof.
  intros Hlargest Hlarge. unfold testAllBlockSizes.
  rewrite (minimumLargestBlockSize_None w largest Hlargest Hlarge).
  apply testAllBlockSizes_loop_None.
Qed.

(** X11. Outside that range [main] does not complete.  With a largest
    directory below 48 MB it raises a ValueError (the dictionary table is
    empty); from 512 MB on it raises a TypeError (at the dictionary stage
    from 1536 MB on, at the block stage before); and between 48 and
    511 MB it raises a TypeError when the number of cores is unknown and
    a ValueError when it is not positive (the thread table is empty). *)
Theorem main_fails :
  forall (sevenzip : list string -> list entry -> Z * option Z)
         (path : string) (w : world) (largest : Z),
    path <> "--" ->
    getLargestDirectorySize w = Ok largest ->
    (largest < 48 -> main sevenzip path w = Raise ValueError) /\
    (512 <= largest -> main sevenzip path w = Raise TypeError) /\
    (48 <= largest < 512 -> cpu_count w = None ->
     main sevenzip path w = Raise TypeError) /\
    (48 <= largest < 512 ->
     forall n, cpu_count w = Some n -> n <= 0 ->
               main sevenzip path w = Raise ValueError).
Proof.
  intros sevenzip path w largest Hpath Hlargest.
  assert (Hlargest0 : getLargestDirectorySize (removeArchives w) = Ok largest)
    by (now rewrite removeArchives_getLargestDirectorySize).
  split; [|split; [|split]].
  - intros Hsmall. unfold main.
    now rewrite (testAllDictSizes_below_48MB_records_nothing sevenzip path
                   _ largest Hlargest0 Hsmall).
  - intros Hlarge. destruct (Z.lt_ge_cases largest 1536) as [Hlt|Hge].
    + destruct (main_first_stages sevenzip path Hpath w largest Hlargest)
        as (d & wd & w2 & _ & _ & _ & Hbase2 & ->); [lia|].
      rewrite (base_getLargestDirectorySize _ _ (eq_sym Hbase2)) in Hlargest.
      now rewrite (testAllBlockSizes_no_bound sevenzip path _ _ w2 largest
                     Hlargest Hlarge).
    + unfold main.
      now rewrite (testAllDictSizes_from_1536MB_TypeError sevenzip path
                     _ largest Hlargest0 Hge).
  - intros [Hlow Hhigh] Hcpu.
    destruct (main_first_stages sevenzip path Hpath w largest Hlargest)
      as (d & wd & w2 & _ & _ & _ & Hbase2 & ->); [lia|].
    rewrite (base_getLargestDirectorySize _ _ (eq_sym Hbase2)) in Hlargest.
    destruct (testAllBlockSizes_runs sevenzip path (Some d) (Some wd) w2
                largest Hlargest Hhigh)
      as (t3 & w3 & Hblock & Hne3 & Hnd3 & _).
    destruct (smallestSize_in t3 Hnd3 Hne3) as (b & vb & Hbest3 & _).
    pose proof (testAllBlockSizes_base sevenzip path Hpath _ _ _ _ _ Hblock)
      as Hbase3.
    rewrite Hblock. cbn [Py.bind]. rewrite Hbest3. cbn [Py.bind fst].
    unfold testNThreads.
    now rewrite (base_cpu_count _ _ Hbase3), (base_cpu_count _ _ Hbase2),
      Hcpu.
  - intros [Hlow Hhigh] n Hcpu Hn.
    destruct (main_first_stages sevenzip path Hpath w largest Hlargest)
      as (d & wd & w2 & _ & _ & _ & Hbase2 & ->); [lia|].
    rewrite (base_getLargestDirectorySize _ _ (eq_sym Hbase2)) in Hlargest.
    destruct (testAllBlockSizes_runs sevenzip path (Some d) (Some wd) w2
                largest Hlargest Hhigh)
      as (t3 & w3 & Hblock & Hne3 & Hnd3 & _).
    destruct (smallestSize_in t3 Hnd3 Hne3) as (b & vb & Hbest3 & _).
    pose proof (testAllBlockSizes_base sevenzip path Hpath _ _ _ _ _ Hblock)
      as Hbase3.
    rewrite Hblock. cbn [Py.bind]. rewrite Hbest3. cbn [Py.bind fst].
    unfold testNThreads.
    rewrite (base_cpu_count _ _ Hbase3), (base_cpu_count _ _ Hbase2), Hcpu.
    rewrite reversed_range_countdown. unfold countdown.
    replace (Z.to_nat n) with 0%nat by lia. reflexivity.
Qed.

Lemma main_fails_witness :
  "7z" <> "--" /\
  getLargestDirectorySize world_10MB = Ok 10 /\
  (10 < 48 -> main sevenzip_1000 "7z" world_10MB = Raise ValueError) /\
  (512 <= 10 -> main sevenzip_1000 "7z" world_10MB = Raise TypeError) /\
  (48 <= 10 < 512 -> cpu_count world_10MB = None ->
   main sevenzip_1000 "7z" world_10MB = Raise TypeError) /\
  (48 <= 10 < 512 ->
   forall n, cpu_count world_10MB = Some n -> n <= 0 ->
             main sevenzip_1000 "7z" world_10MB = Raise ValueError).
Proof.
  split; [discriminate|]. split; [reflexivity|].
  apply (main_fails sevenzip_1000 "7z" world_10MB 10);
    [discriminate|reflexivity].
Defined.

(** X12. Outside the range from 48 to 1535 MB the dictionary sweep tests
    nothing: below 48 MB it returns an empty table and leaves everything
    as it was, not a single command having been run; from 1536 MB on it
    raises a TypeError. *)
Theorem testAllDictSizes_outside_range :
  forall (sevenzip : list string -> list entry -> Z * option Z)
         (path : string) (w : world) (largest : Z),
    getLargestDirectorySize w = Ok largest ->
    (largest < 48 -> testAllDictSizes sevenzip path w = Ok ([], w)) /\
    (1536 <= largest ->
     testAllDictSizes sevenzip path w = Raise TypeError).
Proof.
  intros sevenzip path w largest Hlargest. split; intros Hrange.
  - now apply (testAllDictSizes_below_48MB_records_nothing sevenzip path w
                 largest).
  - now apply (testAllDictSizes_from_1536MB_TypeError sevenzip path w
                 largest).
Qed.

Lemma testAllDictSizes_outside_range_witness :
  getLargestDirectorySize (mkWorld [Dir "A" 2000] (Some 4) []) = Ok 2000 /\
  (2000 < 48 ->
   testAllDictSizes sevenzip_1000 "7z" (mkWorld [Dir "A" 2000] (Some 4) [])
   = Ok ([], mkWorld [Dir "A" 2000] (Some 4) [])) /\
  (1536 <= 2000 ->
   testAllDictSizes sevenzip_1000 "7z" (mkWorld [Dir "A" 2000] (Some 4) [])
   = Raise TypeError).
Proof.
  split; [reflexivity|].
  apply (testAllDictSizes_outside_range sevenzip_1000 "7z"
           (mkWorld [Dir "A" 2000] (Some 4) []) 2000).
  reflexivity.
Defined.

(* ================================================================== *)
(** ** The size probe on well-formed listings *)
(* ================================================================== *)







Lemma string_of_uint_no_space_zero (d : Decimal.uint) :
  no_space (NilZero.string_of_uint d) = true.
Proof. destruct d; try reflexivity; apply string_of_uint_no_space. Qed.





Section MaxFacts.
Context {K : Type} `{Key K}.



End MaxFacts.


















(* ================================================================== *)
(** ** Archives on disk *)
(* ================================================================== *)

Lemma total_from_sum (fs : list entry) :
  forall acc,
    fold_left
      (fun total_size archive =>
         if is_archive archive then
           match archive with
           | File _ archive_size => total_size + archive_size
           | Dir _ _ => total_size
           end
         else total_size) fs acc
    = acc + fold_right Z.add 0 (map entry_size (filter is_archive fs)).
Proof.
  induction fs as [|e fs IH]; intros acc; cbn [fold_left filter]; [cbn; lia|].
  rewrite IH. destruct (is_archive e) eqn:E; [|reflexivity].
  destruct e; [discriminate|]. cbn [map fold_right entry_size]. lia.
Qed.

(** X14. [getTotalSizeOfArchives] is the sum of the sizes of the regular
    files whose name ends in [.7z], and of nothing else (directories and
    other files do not count); it is 0 right after [removeArchives], and
    it is never negative when no file has a negative size. *)
Theorem getTotalSizeOfArchives_sum :
  forall w : world,
    getTotalSizeOfArchives w
    = fold_right Z.add 0 (map entry_size (archives w)) /\
    getTotalSizeOfArchives (removeArchives w) = 0 /\
    ((forall name size, In (File name size) (cwd w) -> 0 <= size) ->
     0 <= getTotalSizeOfArchives w).
Proof.
  intros w.
  assert (Hsum : getTotalSizeOfArchives w
                 = fold_right Z.add 0 (map entry_size (archives w)))
    by (unfold getTotalSizeOfArchives; rewrite total_from_sum; reflexivity).
  split; [exact Hsum|]. split.
  - apply getTotalSizeOfArchives_clean, removeArchives_archives.
  - intros Hsizes. rewrite Hsum. unfold archives.
    induction (cwd w) as [|e fs IH]; cbn [filter]; [cbn; lia|].
    assert (IH' : 0 <= fold_right Z.add 0
                         (map entry_size (filter is_archive fs)))
      by (apply IH; intros name size Hin; apply (Hsizes name size);
          now right).
    destruct (is_archive e); [|exact IH'].
    cbn [map fold_right]. destruct e as [n mb|n size]; cbn [entry_size];
      [lia|].
    specialize (Hsizes n size (or_introl eq_refl)). lia.
Qed.



Lemma write_file_has (name : string) (size : Z) (fs : list entry) :
  (forall mb, ~ In (Dir name mb) fs) ->
  has_file name (write_file name size fs).
Proof.
  intros Hnodir. induction fs as [|e fs IH]; cbn [write_file].
  - exists size. now left.
  - destruct (String.eqb_spec (entry_name e) name) as [He|_].
    + destruct e as [n mb|n sz]; cbn [entry_name] in He; subst.
      * exfalso. apply (Hnodir mb). now left.
      * exists size. now left.
    + destruct IH as [sz Hin].
      * intros mb Hin. apply (Hnodir mb). now right.
      * exists sz. now right.
Qed.

Lemma write_file_keeps_file (n name : string) (size : Z) (fs : list entry) :
  has_file n fs -> has_file n (write_file name size fs).
Proof.
  intros [sz Hin]. induction fs as [|e fs IH]; [contradiction|].
  cbn [write_file]. destruct (String.eqb_spec (entry_name e) name) as [He|_].
  - destruct e as [m mb|m sz']; cbn [entry_name] in He; subst.
    + exists sz. exact Hin.
    + destruct Hin as [[= -> ->]|Hin]; [exists size; now left|].
      exists sz. now right.
  - destruct Hin as [->|Hin]; [exists sz; now left|].
    destruct (IH Hin) as [sz' Hin']. exists sz'. now right.
Qed.

Lemma write_file_no_new_dir (n name : string) (mb size : Z)
  (fs : list entry) :
  In (Dir n mb) (write_file name size fs) -> In (Dir n mb) fs.
Proof.
  induction fs as [|e fs IH]; cbn [write_file].
  - intros [Heq|[]]. discriminate.
  - destruct (String.eqb (entry_name e) name).
    + destruct e; [auto|]. intros [Heq|Hin]; [discriminate|now right].
    + intros [->|Hin]; [now left|right; auto].
Qed.

Section ArchivesWritten.
Variable sevenzip : list string -> list entry -> Z * option Z.
Variable path : string.
Hypothesis always_writes :
  forall cmd fs, exists rc size, sevenzip cmd fs = (rc, Some size).

Lemma runCMD_loop_writes (dirs cmd : list string) :
  (forall d, archive_arg (cmd ++ [(d ++ ".7z")%string; d])
             = Some (d ++ ".7z")%string) ->
  forall w,
    (forall d mb, In d dirs -> ~ In (Dir (d ++ ".7z") mb) (cwd w)) ->
    forall d,
      In d dirs \/ has_file (d ++ ".7z") (cwd w) ->
      has_file (d ++ ".7z") (cwd (snd (runCMD_loop sevenzip dirs cmd w))).
Proof.
  intros Harg. induction dirs as [|d0 dirs IH]; intros w Hnodir d Hd;
    cbn [runCMD_loop snd].
  - destruct Hd as [[]|Hd]. exact Hd.
  - rewrite del_last2_app.
    assert (Hcwd : cwd (subprocess_run sevenzip
                          (cmd ++ [(d0 ++ ".7z")%string; d0]) w)
                   = write_file (d0 ++ ".7z")
                       (match snd (sevenzip
                                     (cmd ++ [(d0 ++ ".7z")%string; d0])
                                     (cwd w)) with
                        | Some size => size
                        | None => 0
                        end) (cwd w)).
    { unfold subprocess_run.
      destruct (always_writes (cmd ++ [(d0 ++ ".7z")%string; d0]) (cwd w))
        as (rc & size & ->).
      now rewrite Harg. }
    apply IH.
    + intros d' mb Hd' Hin. rewrite Hcwd in Hin.
      apply write_file_no_new_dir in Hin.
      apply (Hnodir d' mb); [now right|exact Hin].
    + rewrite Hcwd. destruct Hd as [[<-|Hd]|Hd].
      * right. apply write_file_has. intros mb.
        apply Hnodir. now left.
      * now left.
      * right. now apply write_file_keeps_file.
Qed.

End ArchivesWritten.

(** X16. With a compressor that leaves an archive at every run, a
    compression run ends with one regular file [<directory>.7z] in the
    working directory for each directory of the listing, provided no
    directory already has such a name: the archive is named where [7z]
    reads the archive name, right after [--]. *)
Theorem runCMD_writes_one_archive_per_directory :
  forall (sevenzip : list string -> list entry -> Z * option Z)
         (path : string) (dict_size : option string) (word_size : option Z)
         (block_size : option string) (threads : option Z) (w : world),
    path <> "--" ->
    (forall cmd fs, exists rc size, sevenzip cmd fs = (rc, Some size)) ->
    (forall d mb, In d (directories w) ->
                  ~ In (Dir (d ++ ".7z") mb) (cwd w)) ->
    exists w1,
      runCMD sevenzip path dict_size word_size block_size threads w
      = Ok w1 /\
      forall d, In d (directories w) -> has_file (d ++ ".7z") (cwd w1).
Proof.
  intros sevenzip path dict_size word_size block_size threads w Hpath
    Hwrites Hnodir.
  unfold runCMD, runCMD_cmd.
  rewrite runCMD_flags_shape by exact Hpath. cbn [Py.bind].
  match goal with
  | |- context [runCMD_loop sevenzip ?dirs ?cmd w] =>
      pose proof (runCMD_loop_writes sevenzip Hwrites dirs cmd) as Hloop;
      destruct (runCMD_loop sevenzip dirs cmd w) as [c w1] eqn:E
  end.
  exists w1. split; [reflexivity|].
  intros d Hd. replace w1 with (snd (c, w1)) by reflexivity. rewrite <- E.
  apply Hloop; [|exact Hnodir|now left].
  intros d'. unfold archive_arg. cbn [app tl].
  rewrite <- app_assoc. cbn [app].
  change ("a" :: "-mx9"
          :: switches dict_size word_size block_size threads
             ++ "--" :: (d' ++ ".7z")%string :: [d'])%list
    with (("a" :: "-mx9"
           :: switches dict_size word_size block_size threads)
          ++ "--" :: (d' ++ ".7z")%string :: [d'])%list.
  apply after_dashes_found. intros [Hx|[Hx|Hin]]; try discriminate.
  now apply switches_no_dashes in Hin.
Qed.

Lemma runCMD_writes_one_archive_per_directory_witness :
  "7z" <> "--" /\
  (forall cmd fs, exists rc size, sevenzip_1000 cmd fs = (rc, Some size)) /\
  (forall d mb, In d (directories world_10MB) ->
                ~ In (Dir (d ++ ".7z") mb) (cwd world_10MB)) /\
  exists w1,
    runCMD sevenzip_1000 "7z" (Some "4m") (Some 32) None None world_10MB
    = Ok w1 /\
    forall d, In d (directories world_10MB) ->
              has_file (d ++ ".7z") (cwd w1).
Proof.
  assert (Hwrites : forall cmd fs,
             exists rc size, sevenzip_1000 cmd fs = (rc, Some size))
    by (intros cmd fs; exists 0, 1000; reflexivity).
  assert (Hnodir : forall d mb, In d (directories world_10MB) ->
                                ~ In (Dir (d ++ ".7z") mb) (cwd world_10MB)).
  { intros d mb Hd Hin. simpl in Hd, Hin.
    destruct Hd as [<-|[<-|[]]];
      destruct Hin as [Hin|[Hin|[]]]; discriminate Hin. }
  split; [discriminate|]. split; [exact Hwrites|]. split; [exact Hnodir|].
  apply (runCMD_writes_one_archive_per_directory sevenzip_1000 "7z"
           (Some "4m") (Some 32) None None world_10MB);
    [discriminate|exact Hwrites|exact Hnodir].
Defined.
